(** * The LXD backend of multipass: virtual machine and native mount handler

    A shallow embedding of
      src/platform/backends/lxd/lxd_virtual_machine.cpp
      src/platform/backends/lxd/lxd_mount_handler.cpp
    The methods are written in a state-and-exception monad over a [World]
    that holds the virtual machine object, the LXD daemon behind the local
    socket, the trace of calls made to it, the log and the status monitor. *)

From Stdlib Require Import ZArith Lia.
From stdpp Require Import base option list strings gmap pretty.

#[local] Set Warnings "-register-all".
#[local] Open Scope string_scope.
#[local] Open Scope Z_scope.

(** ** Qt's JSON values *)

Module Json.

(** [QJsonValue]: the seven types of [QJsonValue::Type].  A [QJsonObject]
    is a map with unique keys. Only whole numbers are represented: a
    fractional double is to [toInt] what a value of another type is. *)
Inductive QJsonValue : Type :=
| JNull
| JBool (b : bool)
| JDouble (d : Z)
| JString (s : string)
| JArray (a : list QJsonValue)
| JObject (o : gmap string QJsonValue)
| JUndefined.

Abbreviation QJsonObject := (gmap string QJsonValue).
Abbreviation QJsonArray := (list QJsonValue).

(** [QJsonObject::operator[]]: the value under the key, or Undefined.  (On a
    non-const object the operator also inserts Null under a missing key;
    every object it is used on like that here is a local that is either
    dropped or has the key assigned right after.) *)
Definition value (o : QJsonObject) (key : string) : QJsonValue :=
  default JUndefined (o !! key).

Definition toObject (v : QJsonValue) : QJsonObject :=
  match v with JObject o => o | _ => ∅ end.

Definition toArray (v : QJsonValue) : QJsonArray :=
  match v with JArray a => a | _ => [] end.

Definition toString (v : QJsonValue) : string :=
  match v with JString s => s | _ => EmptyString end.

Definition INT_MIN : Z := - 2 ^ 31.
Definition INT_MAX : Z := 2 ^ 31 - 1.

(** [QJsonValue::toInt(defaultValue)]: the number when the value is a
    double that is an [int], the default otherwise. *)
Definition toInt (v : QJsonValue) (defaultValue : Z) : Z :=
  match v with
  | JDouble d =>
      if bool_decide (INT_MIN ≤ d ≤ INT_MAX) then d else defaultValue
  | _ => defaultValue
  end.

(** [QString::number] of an integer: its decimal digits. *)
Definition QString_number (n : Z) : string := pretty n.

(** [QString::left(n)]: the first [n] characters, all of them when the
    string is shorter. *)
Definition left (n : nat) (s : string) : string := String.substring 0 n s.

End Json.
Export Json.

(** ** The pieces of multipass the backend builds on *)

(** [VirtualMachine::State]. *)
Inductive State : Set :=
| off
| stopped
| starting
| restarting
| running
| delayed_shutdown
| suspending
| suspended
| unknown.

#[global] Instance State_eq_dec : EqDecision State.
Proof. solve_decision. Defined.

(** The exceptions that travel through this code.  Each catch clause of the
    backend names exactly one of these classes. *)
Inductive exception : Type :=
| LocalSocketConnectionException (what : string)
| LXDNotFoundException
| runtime_error (what : string).

(** [mpl::Level] and one record per [mpl::log] call. *)
Inductive Level : Set := error | warning | info | debug | trace.

Record LogRecord : Type := LogLine {
  log_level : Level;
  log_category : string;
  log_message : string
}.

(** A call made to the daemon: an [lxd_request] with its method, URL, body
    and timeout (absent when the default argument is used), or an
    [lxd_wait] on the task an earlier request returned. *)
Record Request : Type := Req {
  method : string;
  req_url : string;
  data : option QJsonObject;
  timeout : option Z
}.

Inductive RemoteCall : Type :=
| Requested (r : Request)
| Waited (base_url : string) (task_data : QJsonObject) (timeout : Z).

(** lxd_request.cpp is not among the sources: the daemon and the transport
    are taken as a parameter.  A request either yields the reply's JSON
    object or throws, and may change the daemon. *)
Class Daemon (R : Type) : Type := {
  lxd_request_reply : Request → R → (exception + QJsonObject) * R;
  lxd_wait_reply : string → QJsonObject → Z → R → (exception + QJsonObject) * R
}.

(** The object itself: the fields of [LXDVirtualMachine] and of its base
    class that the methods below read or write. [manager] is [true] for a
    non-null pointer. *)
Record LXDVirtualMachine : Type := VM {
  vm_name : string;
  name : string;
  manager : bool;
  base_url : string;
  bridge_name : string;
  mac_addr : string;
  storage_pool : string;
  state : State;
  port : option Z;
  update_shutdown_status : bool;
  shutdown_while_starting : bool
}.

Definition set_state (s : State) (vm : LXDVirtualMachine) : LXDVirtualMachine :=
  VM (vm_name vm) (name vm) (manager vm) (base_url vm) (bridge_name vm)
     (mac_addr vm) (storage_pool vm) s (port vm)
     (update_shutdown_status vm) (shutdown_while_starting vm).

Definition set_port (p : option Z) (vm : LXDVirtualMachine) : LXDVirtualMachine :=
  VM (vm_name vm) (name vm) (manager vm) (base_url vm) (bridge_name vm)
     (mac_addr vm) (storage_pool vm) (state vm) p
     (update_shutdown_status vm) (shutdown_while_starting vm).

Definition set_shutdown_while_starting (b : bool) (vm : LXDVirtualMachine)
  : LXDVirtualMachine :=
  VM (vm_name vm) (name vm) (manager vm) (base_url vm) (bridge_name vm)
     (mac_addr vm) (storage_pool vm) (state vm) (port vm)
     (update_shutdown_status vm) b.

(** What another thread does to the object while [stop] sleeps on
    [state_wait]: it wakes the sleeper for no reason, or it sets
    [shutdown_while_starting] and notifies (the shutdown-while-starting
    signal). *)
Inductive Wake : Set := spurious | shutdown_signal.

Definition deliver (a : Wake) (vm : LXDVirtualMachine) : LXDVirtualMachine :=
  match a with
  | spurious => vm
  | shutdown_signal => set_shutdown_while_starting true vm
  end.

(** ** The world and the monad *)

Section World.
Context {R : Type}.

Record World : Type := MkWorld {
  self : LXDVirtualMachine;
  remote : R;
  calls : list RemoteCall;
  logged : list LogRecord;
  persisted : list (string * State);
  wakeups : list Wake
}.

Definition with_self (f : LXDVirtualMachine → LXDVirtualMachine) (w : World) : World :=
  MkWorld (f (self w)) (remote w) (calls w) (logged w) (persisted w) (wakeups w).

Definition with_remote (r : R) (c : RemoteCall) (w : World) : World :=
  MkWorld (self w) r (calls w ++ [c]) (logged w) (persisted w) (wakeups w).

Definition with_log (l : LogRecord) (w : World) : World :=
  MkWorld (self w) (remote w) (calls w) (logged w ++ [l]) (persisted w) (wakeups w).

Definition with_persisted (n : string) (s : State) (w : World) : World :=
  MkWorld (self w) (remote w) (calls w) (logged w) (persisted w ++ [(n, s)]) (wakeups w).

Definition with_wakeups (ws : list Wake) (w : World) : World :=
  MkWorld (self w) (remote w) (calls w) (logged w) (persisted w) ws.

End World.
Arguments World : clear implicits.

(** How a call ends: it returns, it leaves by an exception, the process is
    aborted by a failed [assert], or the thread is still asleep on the
    condition variable when the wake-ups run out. *)
Inductive outcome (A : Type) : Type :=
| Returned (a : A)
| Thrown (e : exception)
| Aborted
| Blocked.
Arguments Returned {A} a.
Arguments Thrown {A} e.
Arguments Aborted {A}.
Arguments Blocked {A}.

Definition M (R A : Type) : Type := World R → outcome A * World R.

Section Monad.
Context {R : Type}.

Definition ret {A} (a : A) : M R A := λ w, (Returned a, w).

Definition bind {A B} (c : M R A) (k : A → M R B) : M R B :=
  λ w, match c w with
       | (Returned a, w') => k a w'
       | (Thrown e, w') => (Thrown e, w')
       | (Aborted, w') => (Aborted, w')
       | (Blocked, w') => (Blocked, w')
       end.

Definition throw {A} (e : exception) : M R A := λ w, (Thrown e, w).

Definition this : M R LXDVirtualMachine := λ w, (Returned (self w), w).

Definition assign (f : LXDVirtualMachine → LXDVirtualMachine) : M R unit :=
  λ w, (Returned (), with_self f w).

(** [try { body } catch (const E&) { handler }]: [handles] picks the
    exceptions of class [E]; any other one passes through. *)
Definition try_catch {A} (body : M R A)
    (handles : exception → option (M R A)) : M R A :=
  λ w, match body w with
       | (Thrown e, w') =>
           match handles e with
           | Some handler => handler w'
           | None => (Thrown e, w')
           end
       | r => r
       end.

(** [assert(cond)], the macro of <cassert>.  In a build that defines
    [NDEBUG] it expands to nothing and the condition is not looked at; in a
    build that does not, a false condition aborts the process. *)
Definition assert (NDEBUG : bool) (cond : bool) : M R unit :=
  λ w, if NDEBUG then (Returned (), w)
       else if cond then (Returned (), w) else (Aborted, w).

(** A function that is [noexcept], as every destructor is unless it says
    otherwise: an exception that would leave it ends the process in
    [std::terminate]. *)
Definition noexcept {A} (body : M R A) : M R A :=
  λ w, match body w with
       | (Thrown e, w') => (Aborted, w')
       | r => r
       end.

(** [mpl::log(level, category, message)]. *)
Definition log (l : Level) (category message : string) : M R unit :=
  λ w, (Returned (), with_log (LogLine l category message) w).

(** [monitor->persist_state_for(name, state)]. *)
Definition persist_state_for (n : string) (s : State) : M R unit :=
  λ w, (Returned (), with_persisted n s w).

(** [cv.wait(lock, pred)] is [while (!pred()) cv.wait(lock)]: every pass
    through the loop hands the object to the next wake-up. *)
Fixpoint wait_until (pred : LXDVirtualMachine → bool) (ws : list Wake)
    (vm : LXDVirtualMachine) : bool * LXDVirtualMachine * list Wake :=
  if pred vm then (true, vm, ws)
  else match ws with
       | [] => (false, vm, [])
       | a :: ws' => wait_until pred ws' (deliver a vm)
       end.

Definition condition_wait (pred : LXDVirtualMachine → bool) : M R unit :=
  λ w, match wait_until pred (wakeups w) (self w) with
       | (true, vm, ws) => (Returned (), with_wakeups ws (with_self (λ _, vm) w))
       | (false, vm, ws) => (Blocked, with_wakeups ws (with_self (λ _, vm) w))
       end.

Context `{!Daemon R}.

(** [lxd_request(manager, method, url, data, timeout)]. *)
Definition lxd_request (method url : string) (data : option QJsonObject)
    (timeout : option Z) : M R QJsonObject :=
  λ w, let q := Req method url data timeout in
       match lxd_request_reply q (remote w) with
       | (inr reply, r) => (Returned reply, with_remote r (Requested q) w)
       | (inl e, r) => (Thrown e, with_remote r (Requested q) w)
       end.

(** [lxd_wait(manager, base_url, task_data, timeout)]. *)
Definition lxd_wait (base_url : string) (task_data : QJsonObject)
    (timeout : Z) : M R QJsonObject :=
  λ w, match lxd_wait_reply base_url task_data timeout (remote w) with
       | (inr reply, r) =>
           (Returned reply, with_remote r (Waited base_url task_data timeout) w)
       | (inl e, r) =>
           (Thrown e, with_remote r (Waited base_url task_data timeout) w)
       end.

End Monad.

#[global] Instance M_ret {R} : MRet (M R) := λ A, @ret R A.
#[global] Instance M_bind {R} : MBind (M R) := λ A B k c, @bind R A B c k.

(** ** lxd_virtual_machine.cpp *)

(** [MemorySize]: all the backend asks of it is [in_bytes()]. *)
Record MemorySize : Type := Bytes { in_bytes : Z }.

Section lxd_virtual_machine.
Context {R : Type} `{!Daemon R}.

Definition instance_state_for (name url : string) : M R State :=
  json_reply ← lxd_request "GET" url None None;
  let metadata := toObject (value json_reply "metadata") in
  log trace name
      ("Got LXD container state: " +:+ name +:+ " is "
         +:+ toString (value metadata "status"));;
  match toInt (value metadata "status_code") (-1) with
  | 101 (* Started *)
  | 103 (* Running *)
  | 107 (* Stopping *)
  | 111 (* Thawed *) => mret running
  | 102 (* Stopped *) => mret stopped
  | 106 (* Starting *) => mret starting
  | 109 (* Freezing *) => mret suspending
  | 110 (* Frozen *) => mret suspended
  | 104 (* Cancelling *)
  | 108 (* Aborting *)
  | 112 (* Error *) => mret unknown
  | _ =>
      log error name
          ("Got unexpected LXD state: " +:+ toString (value metadata "status")
             +:+ " (" +:+ QString_number (toInt (value metadata "status_code") 0)
             +:+ ")");;
      mret unknown
  end.

Section get_ip_for.
(** [mp::IPAddress] is not among the sources. Its constructor from a string
    is taken as a parameter: [None] stands for the [std::invalid_argument]
    it throws on a string that is no address. *)
Context {IPAddress : Type} (IPAddress_of : string → option IPAddress).

(** The loop of [get_ip_for] over the leases still to visit. *)
Fixpoint get_ip_for_leases (mac_addr : string) (leases : QJsonArray)
    : option IPAddress :=
  match leases with
  | [] => None
  | lease :: rest =>
      if decide (toString (value (toObject lease) "hwaddr") = mac_addr) then
        match IPAddress_of (toString (value (toObject lease) "address")) with
        | Some ip => Some ip
        | None (* catch (const std::invalid_argument&) *) =>
            get_ip_for_leases mac_addr rest
        end
      else get_ip_for_leases mac_addr rest
  end.

Definition get_ip_for (mac_addr url : string) : M R (option IPAddress) :=
  json_leases ← lxd_request "GET" url None None;
  let leases := toArray (value json_leases "metadata") in
  mret (get_ip_for_leases mac_addr leases).

End get_ip_for.

Definition url (vm : LXDVirtualMachine) : string :=
  base_url vm +:+ "/virtual-machines/" +:+ name vm.

Definition state_url (vm : LXDVirtualMachine) : string :=
  url vm +:+ "/state".

Definition network_leases_url (vm : LXDVirtualMachine) : string :=
  base_url vm +:+ "/networks/" +:+ bridge_name vm +:+ "/leases".

Definition update_state : M R unit :=
  vm ← this;
  persist_state_for (vm_name vm) (state vm).

Definition request_state (new_state : string) : M R unit :=
  vm ← this;
  let state_json : QJsonObject := {[ "action" := JString new_state ]} in
  state_task ← lxd_request "PUT" (state_url vm) (Some state_json) (Some 5000);
  try_catch
    (lxd_wait (base_url vm) state_task 60000;; mret ())
    (λ e, match e with
          | LXDNotFoundException =>
              (* Implies the task doesn't exist, move on... *)
              Some (mret ())
          | _ => None
          end).

(** The [try] block yields [Some s] where the source returns [s] from
    inside it, [None] where control falls through to the final
    [return state]. *)
Definition current_state : M R State :=
  returned ← try_catch
    (vm ← this;
     present_state ← instance_state_for (name vm) (state_url vm);
     vm ← this;
     if bool_decide (state vm = delayed_shutdown ∨ state vm = starting)
        && bool_decide (present_state = running)
     then mret (Some (state vm))
     else assign (set_state present_state);; mret None)
    (λ e, match e with
          | LocalSocketConnectionException what =>
              Some (vm ← this;
                    log warning (vm_name vm) what;;
                    assign (set_state unknown);;
                    mret None)
          | _ => None
          end);
  match returned with
  | Some s => mret s
  | None => vm ← this; mret (state vm)
  end.

(** [state_mutex] is held from the first line on and given up only inside
    the wait; with one thread running the method it shows nowhere else. *)
Definition stop : M R unit :=
  present_state ← current_state;
  vm ← this;
  if bool_decide (present_state = stopped) then
    log debug (vm_name vm)
        "Ignoring stop request since instance is already stopped"
  else if bool_decide (present_state = suspended) then
    log info (vm_name vm) "Ignoring shutdown issued while suspended"
  else
    request_state "stop";;
    assign (set_state stopped);;
    (if bool_decide (present_state = starting)
     then condition_wait shutdown_while_starting
     else mret ());;
    assign (set_port None);;
    vm ← this;
    if update_shutdown_status vm then update_state else mret ().

Definition shutdown : M R unit := stop.

Definition ssh_port : M R Z := mret 22.

(** The three resize operations guard their argument and the manager
    pointer with [assert] alone; [NDEBUG] says how the file was built. *)
Definition update_cpus (NDEBUG : bool) (num_cores : Z) : M R unit :=
  assert NDEBUG (bool_decide (num_cores > 0));;
  vm ← this;
  assert NDEBUG (manager vm);;
  let patch_json : QJsonObject :=
    {[ "config" := JObject {[ "limits.cpu" := JString (QString_number num_cores) ]} ]} in
  reply ← lxd_request "PATCH" (url vm) (Some patch_json) None;
  mret ().

Definition resize_memory (NDEBUG : bool) (new_size : MemorySize) : M R unit :=
  assert NDEBUG (bool_decide (in_bytes new_size > 0));;
  vm ← this;
  assert NDEBUG (manager vm);;
  let patch_json : QJsonObject :=
    {[ "config" :=
         JObject {[ "limits.memory" := JString (QString_number (in_bytes new_size)) ]} ]} in
  reply ← lxd_request "PATCH" (url vm) (Some patch_json) None;
  mret ().

Definition resize_disk (NDEBUG : bool) (new_size : MemorySize) : M R unit :=
  assert NDEBUG (bool_decide (in_bytes new_size > 0));;
  vm ← this;
  assert NDEBUG (manager vm);;
  let root_json : QJsonObject :=
    <[ "path" := JString "/" ]>
    (<[ "pool" := JString (storage_pool vm) ]>
    (<[ "size" := JString (QString_number (in_bytes new_size)) ]>
    {[ "type" := JString "disk" ]})) in
  let patch_json : QJsonObject :=
    {[ "devices" := JObject {[ "root" := JObject root_json ]} ]} in
  lxd_request "PATCH" (url vm) (Some patch_json) None;;
  mret ().

End lxd_virtual_machine.

(** ** lxd_mount_handler.cpp *)

Definition category : string := "lxd-mount-handler".
Definition length_of_unique_id_without_prefix : nat := 25.
Definition timeout_millisecond : Z := 300000.

(** The handler's own fields; its [vm] is the object of the world. *)
Record LXDMountHandler : Type := MountHandler {
  target : string;
  source : string;
  lxd_instance_endpoint : string;
  device_name_ : string
}.

Section lxd_mount_handler.
Context {R : Type} `{!Daemon R}.
(** [mp::utils::make_uuid] and the constant [lxd_socket_url] of
    lxd_request.h are not among the sources. *)
Context (make_uuid : string → string) (lxd_socket_url : string).

Definition lxd_device_remove (h : LXDMountHandler) : M R unit :=
  instance_info ← lxd_request "GET" (lxd_instance_endpoint h) None None;
  let instance_info_metadata := toObject (value instance_info "metadata") in
  let device_list := toObject (value instance_info_metadata "devices") in
  let device_list := delete (device_name_ h) device_list in
  let instance_info_metadata :=
    <[ "devices" := JObject device_list ]> instance_info_metadata in
  json_reply ← lxd_request "PUT" (lxd_instance_endpoint h)
                 (Some instance_info_metadata) None;
  lxd_wait lxd_socket_url json_reply timeout_millisecond;;
  mret ().

Definition lxd_device_add (h : LXDMountHandler) : M R unit :=
  instance_info ← lxd_request "GET" (lxd_instance_endpoint h) None None;
  let instance_info_metadata := toObject (value instance_info "metadata") in
  let device_list := toObject (value instance_info_metadata "devices") in
  let new_device_object : QJsonObject :=
    <[ "path" := JString (target h) ]>
    (<[ "source" := JString (source h) ]>
    {[ "type" := JString "disk" ]}) in
  let device_list := <[ device_name_ h := JObject new_device_object ]> device_list in
  let instance_info_metadata :=
    <[ "devices" := JObject device_list ]> instance_info_metadata in
  json_reply ← lxd_request "PUT" (lxd_instance_endpoint h)
                 (Some instance_info_metadata) None;
  lxd_wait lxd_socket_url json_reply timeout_millisecond;;
  mret ().

(** The name of the device of a target path: 27 (25 + 2 for the prefix)
    letters is the longest device name LXD accepts. *)
Definition device_name_for (target_path : string) : string :=
  "d_" +:+ left length_of_unique_id_without_prefix (make_uuid target_path).

(** The constructor; [source_path] is [mount.source_path].  The base class
    [MountHandler] is not among the sources: its constructor is taken to
    store the two paths and return. *)
Definition LXDMountHandler_new (target_path source_path : string)
    : M R LXDMountHandler :=
  vm ← this;
  let h := MountHandler target_path source_path
             (lxd_socket_url +:+ "/instances/" +:+ vm_name vm)
             (device_name_for target_path) in
  st ← current_state;
  if bool_decide (st ≠ off) && bool_decide (st ≠ stopped) then
    throw (runtime_error ("Please stop the instance " +:+ vm_name vm
                            +:+ " before mount it natively."))
  else
    log info category
        ("initializing native mount " +:+ source h +:+ " => " +:+ target h
           +:+ " in '" +:+ vm_name vm +:+ "'");;
    lxd_device_add h;;
    mret h.

(** The character the destructor's message puts around the target. *)
Definition dquote : string := String (Ascii.ascii_of_nat 34) EmptyString.

(** The destructor.  It has no handler of its own, so an exception of
    [lxd_device_remove] does not reach the caller: it ends the process. *)
Definition LXDMountHandler_delete (h : LXDMountHandler) : M R unit :=
  noexcept
    (vm ← this;
     log info category
         ("Stopping native mount " +:+ dquote +:+ target h +:+ dquote
            +:+ " in instance '"
            +:+ vm_name vm +:+ "'");;
     lxd_device_remove h).

End lxd_mount_handler.

(** ** A daemon to run the backend against *)

(** Modelled from the spec: lxd_request.cpp, the daemon and its socket are
    not among the sources.  This daemon is a store of resources by URL, as
    the spec describes the control API: a request fails with the transport's
    exception when the socket cannot be reached and with not-found when the
    daemon has no resource of that name; GET returns the resource as the
    reply's metadata; PUT replaces the resource with the request's body; the
    other methods are acknowledged; requests complete at once, so waiting on
    a reply returns it. *)
Record Store : Type := MkStore {
  reachable : bool;
  resources : gmap string QJsonValue
}.

Definition acknowledged : QJsonObject := {[ "type" := JString "sync" ]}.

Definition Store_request (q : Request) (s : Store)
    : (exception + QJsonObject) * Store :=
  if negb (reachable s) then
    (inl (LocalSocketConnectionException "Cannot connect to the LXD socket"), s)
  else
    match resources s !! req_url q with
    | None => (inl LXDNotFoundException, s)
    | Some v =>
        if decide (method q = "GET") then
          (inr (<[ "metadata" := v ]> acknowledged), s)
        else if decide (method q = "PUT") then
          (inr acknowledged,
           MkStore (reachable s)
                   (<[ req_url q := JObject (default ∅ (data q)) ]> (resources s)))
        else (inr acknowledged, s)
    end.

Definition Store_wait (base_url : string) (task_data : QJsonObject)
    (timeout : Z) (s : Store) : (exception + QJsonObject) * Store :=
  (inr task_data, s).

#[global] Instance Store_Daemon : Daemon Store :=
  {| lxd_request_reply := Store_request; lxd_wait_reply := Store_wait |}.

(** An instance called primary and a world around it, for the examples. *)
Definition primary (s : State) : LXDVirtualMachine :=
  VM "primary" "primary" true "unix://lxd/1.0" "mpbr0" "52:54:00:aa:bb:cc"
     "default" s (Some 22) true false.

Definition world_of {R} (vm : LXDVirtualMachine) (r : R) (ws : list Wake)
    : World R :=
  MkWorld vm r [] [] [] ws.

(** The daemon's answer to a state query with the given status code. *)
Definition status_reply (status : string) (code : Z) : QJsonValue :=
  JObject (<[ "status" := JString status ]> {[ "status_code" := JDouble code ]}).

Definition lxd_with_status (vm : LXDVirtualMachine) (status : string) (code : Z)
    : Store :=
  MkStore true {[ state_url vm := status_reply status code ]}.


(** The status codes of the daemon that [instance_state_for] knows. *)
Definition known_codes : list Z :=
  [101; 102; 103; 104; 106; 107; 108; 109; 110; 111; 112].

(** A daemon that cannot be reached. *)
Definition unreachable : Store := MkStore false ∅.

(** The device map of the instance behind an endpoint of the store. *)
Definition device_map (s : Store) (endpoint : string) : QJsonObject :=
  toObject (value (toObject (default JUndefined (resources s !! endpoint))) "devices").

(** The device [lxd_device_add] writes for a handler. *)
Definition device_of (h : LXDMountHandler) : QJsonValue :=
  JObject (<[ "path" := JString (target h) ]>
           (<[ "source" := JString (source h) ]>
           {[ "type" := JString "disk" ]})).

(** Worlds for the examples: the cache says running and the daemon agrees,
    or says the instance has stopped; the instance is stopped; the instance
    is booting while another thread is about to deliver the
    shutdown-while-starting signal. *)
Definition running_world : World Store :=
  world_of (primary running) (lxd_with_status (primary running) "Running" 103) [].

Definition lagging_world : World Store :=
  world_of (primary running) (lxd_with_status (primary running) "Stopped" 102) [].

Definition booting_world : World Store :=
  world_of (primary starting) (lxd_with_status (primary starting) "Running" 103)
           [spurious; shutdown_signal].

(** A stand-in for [mp::IPAddress]: the address is kept as its text, and
    the only text taken for an address is 10.0.0.5. *)
Definition example_IPAddress_of (s : string) : option string :=
  if decide (s = "10.0.0.5") then Some s else None.

Definition lease (hwaddr address : string) : QJsonValue :=
  JObject (<[ "hwaddr" := JString hwaddr ]> {[ "address" := JString address ]}).

(** A lease table whose first lease for the instance's MAC address has a
    malformed address and whose second one is good. *)
Definition leases_world : World Store :=
  world_of (primary running)
    (MkStore true
       {[ network_leases_url (primary running) :=
            JArray [lease "52:54:00:aa:bb:cc" "10.0.0.";
                    lease "52:54:00:aa:bb:cc" "10.0.0.5"] ]})
    [].

(** A stand-in for [mp::utils::make_uuid] and for the socket's URL. *)
Definition example_make_uuid (s : string) : string :=
  "0f1e2d3c-4b5a-6978-8796-a5b4c3d2e1f0".

Definition example_socket_url : string := "unix://lxd/1.0".

(** A stopped instance that already has its root disk. *)
Definition stopped_world : World Store :=
  world_of (primary stopped)
    (MkStore true
       (<[ state_url (primary stopped) := status_reply "Stopped" 102 ]>
        {[ example_socket_url +:+ "/instances/primary" :=
             JObject {[ "devices" :=
               JObject {[ "root" := JObject {[ "type" := JString "disk" ]} ]} ]} ]}))
    [].

Definition example_handler : LXDMountHandler :=
  MountHandler "/home/user/proj" "/host/proj"
    (example_socket_url +:+ "/instances/primary")
    (device_name_for example_make_uuid "/home/user/proj").


(** The stopped instance on a daemon that has it under its URL. *)
Definition resizable_world : World Store :=
  world_of (primary stopped)
    (MkStore true {[ url (primary stopped) := JObject ∅ ]}) [].

(** ** The rest of lxd_virtual_machine.cpp *)

Definition set_update_shutdown_status (b : bool) (vm : LXDVirtualMachine)
  : LXDVirtualMachine :=
  VM (vm_name vm) (name vm) (manager vm) (base_url vm) (bridge_name vm)
     (mac_addr vm) (storage_pool vm) (state vm) (port vm)
     b (shutdown_while_starting vm).

(** [NetworkInterface], [VMImage] and [VirtualMachineDescription], with the
    fields this backend reads.  The four cloud-init documents are
    [YAML::Node]s, a type that is left open. *)
Module NetworkInterface.
Record t : Type := Make { id : string; mac_address : string }.
End NetworkInterface.

Module VMImage.
Record t : Type := Make { id : string }.
End VMImage.

Module VirtualMachineDescription.
Record t (Node : Type) : Type := Make {
  num_cores : Z;
  mem_size : MemorySize;
  disk_space : MemorySize;
  vm_name : string;
  default_mac_address : string;
  extra_interfaces : list NetworkInterface.t;
  image : VMImage.t;
  meta_data_config : Node;
  user_data_config : Node;
  vendor_data_config : Node;
  network_data_config : Node
}.
Arguments Make {Node}.
Arguments num_cores {Node}.
Arguments mem_size {Node}.
Arguments disk_space {Node}.
Arguments vm_name {Node}.
Arguments default_mac_address {Node}.
Arguments extra_interfaces {Node}.
Arguments image {Node}.
Arguments meta_data_config {Node}.
Arguments user_data_config {Node}.
Arguments vendor_data_config {Node}.
Arguments network_data_config {Node}.
End VirtualMachineDescription.

(** What the destructor finds when it looks for the snap_refresh marker:
    [mp::utils::snap_common_dir] throws [SnapEnvironmentException] outside a
    snap, and otherwise the file is there or not. *)
Inductive SnapRefresh : Set :=
| SnapEnvironmentException
| snap_refresh_exists (b : bool).

Section creation.
(** [YAML::Node::IsNull] and [mpu::emit_cloud_config] are not among the
    sources. *)
Context {Node : Type} (IsNull : Node → bool) (emit_cloud_config : Node → string).

Definition generate_base_vm_config (desc : VirtualMachineDescription.t Node)
    : QJsonObject :=
  let config : QJsonObject :=
    <[ "limits.cpu" := JString (QString_number (VirtualMachineDescription.num_cores desc)) ]>
    (<[ "limits.memory" :=
          JString (QString_number (in_bytes (VirtualMachineDescription.mem_size desc))) ]>
    {[ "security.secureboot" := JString "false" ]}) in
  let config :=
    if negb (IsNull (VirtualMachineDescription.meta_data_config desc)) then
      <[ "user.meta-data" :=
           JString (emit_cloud_config (VirtualMachineDescription.meta_data_config desc)) ]>
        config
    else config in
  let config :=
    if negb (IsNull (VirtualMachineDescription.vendor_data_config desc)) then
      <[ "user.vendor-data" :=
           JString (emit_cloud_config (VirtualMachineDescription.vendor_data_config desc)) ]>
        config
    else config in
  let config :=
    if negb (IsNull (VirtualMachineDescription.user_data_config desc)) then
      <[ "user.user-data" :=
           JString (emit_cloud_config (VirtualMachineDescription.user_data_config desc)) ]>
        config
    else config in
  let config :=
    if negb (IsNull (VirtualMachineDescription.network_data_config desc)) then
      <[ "user.network-config" :=
           JString (emit_cloud_config (VirtualMachineDescription.network_data_config desc)) ]>
        config
    else config in
  config.




Context {R : Type} `{!Daemon R}.



End creation.

Section lxd_virtual_machine_rest.
Context {R : Type} `{!Daemon R}.

Definition start : M R unit :=
  vm ← this;
  (if bool_decide (state vm = suspended) then
     log info (vm_name vm) "Resuming from a suspended state";;
     request_state "unfreeze"
   else
     request_state "start");;
  assign (set_state starting);;
  update_state.

Definition suspend : M R unit :=
  throw (runtime_error "suspend is currently not supported").

(** The lambda [is_vm_running] of [ensure_vm_is_running]; the sleep between
    the two polls leaves no mark on the world. *)
Definition is_vm_running : M R bool :=
  s ← current_state;
  if bool_decide (s ≠ stopped) then mret true
  else
    (* Sleep to see if LXD is just rebooting the instance *)
    s ← current_state;
    if bool_decide (s ≠ stopped) then
      assign (set_state starting);;
      mret true
    else mret false.

(** Modelled from the spec: [mp::top_catch_all] is not among the sources.
    Failures at destruction are logged and never propagated: the call runs
    [f] and turns an exception into an error record under the given
    category, whose text [describe] makes from the exception. *)
Definition top_catch_all (describe : exception → string) (log_category : string)
    (f : M R unit) : M R unit :=
  try_catch f (λ e, Some (log error log_category (describe e))).

(** The body of the lambda the destructor hands to [top_catch_all]. *)
Definition LXDVirtualMachine_delete_body (snap : SnapRefresh) : M R unit :=
  try_catch
    (current_state;;
     vm ← this;
     if bool_decide (state vm = running) then
       match snap with
       | snap_refresh_exists true => mret ()
       | snap_refresh_exists false => stop
       | SnapEnvironmentException => stop
       end
     else update_state)
    (λ e, match e with
          | LXDNotFoundException =>
              Some (vm ← this; log debug (vm_name vm) "LXD object not found")
          | _ => None
          end).

(** The destructor. *)
Definition LXDVirtualMachine_delete (describe : exception → string)
    (snap : SnapRefresh) : M R unit :=
  assign (set_update_shutdown_status false);;
  vm ← this;
  top_catch_all describe (vm_name vm) (LXDVirtualMachine_delete_body snap).

Section management_ipv4.
(** [IPAddress::as_string] comes with the constructor as a parameter. *)
Context {IPAddress : Type} (IPAddress_of : string → option IPAddress)
        (as_string : IPAddress → string).

(** [management_ip] is a field of the object that no other method modelled
    here touches: it is passed in and handed back with the result. *)
Definition management_ipv4 (management_ip : option IPAddress)
    : M R (string * option IPAddress) :=
  match management_ip with
  | Some ip => mret (as_string ip, Some ip)
  | None =>
      vm ← this;
      management_ip ← get_ip_for IPAddress_of (mac_addr vm) (network_leases_url vm);
      match management_ip with
      | None =>
          log trace (name vm) "IP address not found.";;
          mret ("UNKNOWN", None)
      | Some ip => mret (as_string ip, Some ip)
      end
  end.

End management_ipv4.

End lxd_virtual_machine_rest.

(** ** The rest of lxd_mount_handler.cpp *)

(** [VMMount], with the fields the backend reads. *)
Module VMMount.
Record t : Type := Make {
  source_path : string;
  gid_mappings : list (Z * Z);
  uid_mappings : list (Z * Z)
}.
End VMMount.

Section make_native_mount_handler.
Context {R : Type} `{!Daemon R}.
Context (make_uuid : string → string) (lxd_socket_url : string).

Definition make_native_mount_handler (target : string) (mount : VMMount.t)
    : M R LXDMountHandler :=
  if negb (bool_decide (VMMount.gid_mappings mount = []))
     || negb (bool_decide (VMMount.uid_mappings mount = []))
  then throw (runtime_error "lxd native mount does not accept gid or uid.")
  else LXDMountHandler_new make_uuid lxd_socket_url target (VMMount.source_path mount).

End make_native_mount_handler.

(** ** A daemon whose operations fail *)

(** Modelled from the spec: waiting for an operation fails when the
    operation ends in failure or runs out of time, and finds nothing when
    the daemon has already reaped it.  This daemon is the store above with
    the exception, if any, that every wait ends in. *)
Record Faulty : Type := MkFaulty {
  faulty_store : Store;
  wait_fault : option exception
}.

Definition Faulty_request (q : Request) (f : Faulty)
    : (exception + QJsonObject) * Faulty :=
  (fst (Store_request q (faulty_store f)),
   MkFaulty (snd (Store_request q (faulty_store f))) (wait_fault f)).

Definition Faulty_wait (base_url : string) (task_data : QJsonObject)
    (timeout : Z) (f : Faulty) : (exception + QJsonObject) * Faulty :=
  match wait_fault f with
  | Some e => (inl e, f)
  | None => (inr task_data, f)
  end.

#[global] Instance Faulty_Daemon : Daemon Faulty :=
  {| lxd_request_reply := Faulty_request; lxd_wait_reply := Faulty_wait |}.

(** The running instance on a daemon whose waits end in the given way. *)
Definition faulty_world (fault : option exception) : World Faulty :=
  world_of (primary running)
    (MkFaulty (lxd_with_status (primary running) "Running" 103) fault) [].

(** The request [request_state] makes for an action, and the query
    [current_state] makes. *)
Definition state_request (vm : LXDVirtualMachine) (action : string) : Request :=
  Req "PUT" (state_url vm) (Some {[ "action" := JString action ]}) (Some 5000).

Definition state_query (vm : LXDVirtualMachine) : Request :=
  Req "GET" (state_url vm) None None.

(** ** A daemon that carries out state actions *)

(** Modelled from the spec: the daemon's side of the lifecycle.  This
    daemon knows one instance by the URL of its state; a GET there reports
    the status code, and a PUT of an action is carried out at once: stop
    leaves the instance Stopped (102), start and unfreeze leave it Running
    (103).  Any other URL is not found. *)
Record Machine : Type := MkMachine {
  machine_state_url : string;
  status_code : Z
}.

Definition Machine_after (action : string) (code : Z) : Z :=
  if decide (action = "stop") then 102
  else if decide (action = "start") then 103
  else if decide (action = "unfreeze") then 103
  else code.

Definition Machine_request (q : Request) (m : Machine)
    : (exception + QJsonObject) * Machine :=
  if decide (req_url q = machine_state_url m) then
    if decide (method q = "GET") then
      (inr (<[ "metadata" := JObject {[ "status_code" := JDouble (status_code m) ]} ]>
              acknowledged), m)
    else
      (inr acknowledged,
       MkMachine (machine_state_url m)
         (Machine_after (toString (value (default ∅ (data q)) "action")) (status_code m)))
  else (inl LXDNotFoundException, m).

Definition Machine_wait (base_url : string) (task_data : QJsonObject)
    (timeout : Z) (m : Machine) : (exception + QJsonObject) * Machine :=
  (inr task_data, m).

#[global] Instance Machine_Daemon : Daemon Machine :=
  {| lxd_request_reply := Machine_request; lxd_wait_reply := Machine_wait |}.

(** The instance primary on such a daemon, with the cache and the daemon
    in the given states. *)
Definition machine_world (cached : State) (code : Z) : World Machine :=
  world_of (primary cached) (MkMachine (state_url (primary cached)) code) [].




(** A description to create primary from: two cores, 1GiB of memory, 5GiB
    of disk, two extra interfaces, and of the cloud-init documents only the
    user data.  A document is its text, and no text is the null node. *)
Definition example_desc : VirtualMachineDescription.t (option string) :=
  VirtualMachineDescription.Make 2 (Bytes 1073741824) (Bytes 5368709120)
    "primary" "52:54:00:aa:bb:cc"
    [NetworkInterface.Make "br0" "52:54:00:00:00:01";
     NetworkInterface.Make "br1" "52:54:00:00:00:02"]
    (VMImage.Make "7d5a2f3e") None (Some "#cloud-config") None None.

Definition example_IsNull (n : option string) : bool :=
  match n with None => true | Some _ => false end.

Definition example_emit (n : option string) : string := default EmptyString n.


(** * Properties *)

(** Unfolds the monad's plumbing. *)
Ltac unfold_M :=
  unfold mbind, mret, M_bind, M_ret, bind, ret, throw, this, assign, log,
    persist_state_for, assert in *.

(** Splits a membership in a literal list into its equalities. *)
Ltac split_mem := rewrite ?elem_of_cons, ?elem_of_nil in *.

Section requests.
Context {R : Type} `{!Daemon R}.

Lemma lxd_request_returned (m u : string) d t (w : World R) reply r' :
  lxd_request_reply (Req m u d t) (remote w) = (inr reply, r') →
  lxd_request m u d t w
  = (Returned reply, with_remote r' (Requested (Req m u d t)) w).
Proof. intros E. unfold lxd_request. by rewrite E. Qed.

Lemma lxd_request_thrown (m u : string) d t (w : World R) e r' :
  lxd_request_reply (Req m u d t) (remote w) = (inl e, r') →
  lxd_request m u d t w
  = (Thrown e, with_remote r' (Requested (Req m u d t)) w).
Proof. intros E. unfold lxd_request. by rewrite E. Qed.

(** A request returns or throws, adds itself to the trace and touches
    nothing but the daemon. *)
Lemma lxd_request_inv (m u : string) d t (w : World R) o w' :
  lxd_request m u d t w = (o, w') →
  self w' = self w ∧ persisted w' = persisted w ∧ wakeups w' = wakeups w
  ∧ logged w' = logged w
  ∧ calls w' = (calls w ++ [Requested (Req m u d t)])%list
  ∧ ((∃ reply, o = Returned reply) ∨ (∃ e, o = Thrown e)).
Proof.
  unfold lxd_request.
  destruct (lxd_request_reply _ _) as [[e|reply] r']; intros [= <- <-];
    cbn; eauto 10.
Qed.

Lemma lxd_wait_inv (b : string) task t (w : World R) o w' :
  lxd_wait b task t w = (o, w') →
  self w' = self w ∧ persisted w' = persisted w ∧ wakeups w' = wakeups w
  ∧ logged w' = logged w
  ∧ calls w' = (calls w ++ [Waited b task t])%list
  ∧ ((∃ reply, o = Returned reply) ∨ (∃ e, o = Thrown e)).
Proof.
  unfold lxd_wait.
  destruct (lxd_wait_reply _ _ _ _) as [[e|reply] r']; intros [= <- <-];
    cbn; eauto 10.
Qed.

End requests.

(** ** The status-code table *)

Section instance_state_for_facts.
Context {R : Type} `{!Daemon R}.

(** Whatever the daemon answers, the query is the one call made, the object
    is left alone, and the function returns a state unless the request
    itself threw. *)
Lemma instance_state_for_inv (n u : string) (w : World R) o w' :
  instance_state_for n u w = (o, w') →
  self w' = self w ∧ persisted w' = persisted w ∧ wakeups w' = wakeups w
  ∧ calls w' = (calls w ++ [Requested (Req "GET" u None None)])%list
  ∧ ((∃ s, o = Returned s)
     ∨ (∃ e r', o = Thrown e ∧ logged w' = logged w
                ∧ lxd_request_reply (Req "GET" u None None) (remote w) = (inl e, r'))).
Proof.
  unfold instance_state_for. unfold_M. unfold lxd_request.
  destruct (lxd_request_reply _ _) as [[e|reply] r'] eqn:Hq.
  - intros [= <- <-]. cbn. eauto 10.
  - cbn -[toInt].
    destruct (toInt _ _) as [|p|p]; [by intros [= <- <-]; cbn; eauto 10| |
                                     by intros [= <- <-]; cbn; eauto 10].
    do 7 (destruct p as [p|p|]; try (by intros [= <- <-]; cbn; eauto 10)).
Qed.

(** C1: [instance_state_for] sends 101, 103, 107 and 111 to running, 102
    to stopped, 106 to starting, 109 to suspending, 110 to suspended, 104,
    108 and 112 to unknown, and every other value of the status code to
    unknown, with an error record in the log; the known codes log nothing
    but the trace record. *)
Theorem instance_state_for_mapping (w : World R) (n u : string)
    (reply : QJsonObject) (r' : R) (code : Z) :
  lxd_request_reply (Req "GET" u None None) (remote w) = (inr reply, r') →
  toInt (value (toObject (value reply "metadata")) "status_code") (-1) = code →
  ∃ s w' line,
    instance_state_for n u w = (Returned s, w')
    ∧ (code ∈ [101; 103; 107; 111] → s = running)
    ∧ (code = 102 → s = stopped)
    ∧ (code = 106 → s = starting)
    ∧ (code = 109 → s = suspending)
    ∧ (code = 110 → s = suspended)
    ∧ (code ∈ [104; 108; 112] → s = unknown)
    ∧ (code ∉ known_codes →
       s = unknown
       ∧ ∃ m, logged w' = (logged w ++ [LogLine trace n line; LogLine error n m])%list)
    ∧ (code ∈ known_codes → logged w' = (logged w ++ [LogLine trace n line])%list).
Proof.
  intros Hq Hc. unfold instance_state_for.
  unfold mbind, M_bind, bind. rewrite (lxd_request_returned _ _ _ _ _ _ _ Hq).
  cbn -[toInt]. rewrite Hc. clear Hc.
  destruct (decide (code ∈ known_codes)) as [Hin|Hout].
  - pose proof Hin as Hcases. unfold known_codes in Hcases. split_mem.
    assert (code = 101 ∨ code = 102 ∨ code = 103 ∨ code = 104 ∨ code = 106
            ∨ code = 107 ∨ code = 108 ∨ code = 109 ∨ code = 110
            ∨ code = 111 ∨ code = 112) as Hc by tauto.
    clear Hcases.
    repeat (destruct Hc as [->|Hc]); try subst code;
      (eexists _, _, _; split; [reflexivity|]);
      split_mem; cbn; rewrite <- ?app_assoc; intuition (try done; try lia).
  - pose proof Hout as Hne. unfold known_codes in Hne. split_mem.
    assert (code ≠ 101 ∧ code ≠ 102 ∧ code ≠ 103 ∧ code ≠ 104 ∧ code ≠ 106
            ∧ code ≠ 107 ∧ code ≠ 108 ∧ code ≠ 109 ∧ code ≠ 110
            ∧ code ≠ 111 ∧ code ≠ 112) as Hd by tauto.
    clear Hne.
    eexists unknown, _, _. split.
    + destruct code as [|p|p]; [reflexivity| |reflexivity].
      do 7 (destruct p as [p|p|]; try reflexivity; try (exfalso; lia)).
    + split_mem. cbn. rewrite <- ?app_assoc.
      intuition (try lia). eexists. reflexivity.
Qed.

End instance_state_for_facts.

(** The daemon reports code 113, which the table does not have. *)
Lemma instance_state_for_mapping_witness :
  ∃ s w' line,
    instance_state_for "primary" (state_url (primary running))
      (world_of (primary running) (lxd_with_status (primary running) "Odd" 113) [])
    = (Returned s, w')
    ∧ (113 ∈ [101; 103; 107; 111] → s = running)
    ∧ (113 = 102 → s = stopped)
    ∧ (113 = 106 → s = starting)
    ∧ (113 = 109 → s = suspending)
    ∧ (113 = 110 → s = suspended)
    ∧ (113 ∈ [104; 108; 112] → s = unknown)
    ∧ (113 ∉ known_codes →
       s = unknown
       ∧ ∃ m, logged w' = ([] ++ [LogLine trace "primary" line; LogLine error "primary" m])%list)
    ∧ (113 ∈ known_codes → logged w' = ([] ++ [LogLine trace "primary" line])%list).
Proof.
  apply (instance_state_for_mapping
           (world_of (primary running) (lxd_with_status (primary running) "Odd" 113) [])
           "primary" (state_url (primary running))
           (<[ "metadata" := status_reply "Odd" 113 ]> acknowledged)
           (lxd_with_status (primary running) "Odd" 113) 113).
  - vm_compute. reflexivity.
  - vm_compute. reflexivity.
Defined.

(** ** [current_state] *)

Section current_state_facts.
Context {R : Type} `{!Daemon R}.

(** [current_state] makes one call, the state query; of the object it can
    change the cached state only; and what it returns is the cached state
    it leaves behind. *)
Lemma current_state_inv (w : World R) o w' :
  current_state w = (o, w') →
  calls w' = (calls w ++ [Requested (Req "GET" (state_url (self w)) None None)])%list
  ∧ persisted w' = persisted w ∧ wakeups w' = wakeups w
  ∧ self w' = set_state (state (self w')) (self w)
  ∧ ((∃ s, o = Returned s ∧ state (self w') = s) ∨ (∃ e, o = Thrown e)).
Proof.
  unfold current_state, try_catch. unfold_M.
  destruct (instance_state_for _ _ w) as [o1 w1] eqn:Hi.
  apply instance_state_for_inv in Hi as (Hs & Hp & Hw & Hc & Ho).
  destruct w as [vm r cs ls ps ws], w1 as [vm1 r1 cs1 ls1 ps1 ws1].
  cbn in *. subst vm1 ps1 ws1 cs1.
  destruct Ho as [[s ->]|(e & r' & -> & _ & _)].
  - destruct (bool_decide (state vm = delayed_shutdown ∨ state vm = starting)
              && bool_decide (s = running)); intros [= <- <-]; cbn;
      destruct vm; eauto 10.
  - destruct e; intros [= <- <-]; cbn; destruct vm; eauto 10.
Qed.

(** C5: when the cached state is starting or delayed_shutdown and the
    fresh poll maps to running, [current_state] returns the cached state
    and leaves the object as it was. *)
Theorem current_state_debounce (w w1 : World R) :
  state (self w) = starting ∨ state (self w) = delayed_shutdown →
  instance_state_for (name (self w)) (state_url (self w)) w = (Returned running, w1) →
  current_state w = (Returned (state (self w)), w1)
  ∧ self w1 = self w.
Proof.
  intros Hc Hi. pose proof (instance_state_for_inv _ _ _ _ _ Hi) as (Hs & _).
  unfold current_state, try_catch. unfold_M. rewrite Hi. rewrite Hs.
  rewrite bool_decide_true by tauto. by rewrite bool_decide_true.
Qed.

(** C7: when the state query fails with the local socket's connection
    exception, [current_state] returns unknown instead of throwing, the
    cached state is unknown, and the exception's text is logged as a
    warning. *)
Theorem current_state_transport_failure (w : World R) (what : string) (r' : R) :
  lxd_request_reply (Req "GET" (state_url (self w)) None None) (remote w)
  = (inl (LocalSocketConnectionException what), r') →
  ∃ w', current_state w = (Returned unknown, w')
        ∧ state (self w') = unknown
        ∧ logged w' = (logged w ++ [LogLine warning (vm_name (self w)) what])%list.
Proof.
  intros Hq. unfold current_state, try_catch, instance_state_for. unfold_M.
  rewrite (lxd_request_thrown _ _ _ _ _ _ _ Hq). cbn.
  eexists. split; [reflexivity|]. by cbn.
Qed.

End current_state_facts.

Lemma current_state_debounce_witness :
  current_state (world_of (primary starting)
                   (lxd_with_status (primary starting) "Running" 103) [])
  = (Returned (state (self (world_of (primary starting)
                   (lxd_with_status (primary starting) "Running" 103) []))),
     snd (instance_state_for "primary" (state_url (primary starting))
            (world_of (primary starting)
               (lxd_with_status (primary starting) "Running" 103) [])))
  ∧ self (snd (instance_state_for "primary" (state_url (primary starting))
            (world_of (primary starting)
               (lxd_with_status (primary starting) "Running" 103) [])))
    = self (world_of (primary starting)
              (lxd_with_status (primary starting) "Running" 103) []).
Proof.
  apply (current_state_debounce
           (world_of (primary starting)
              (lxd_with_status (primary starting) "Running" 103) [])).
  - left. reflexivity.
  - vm_compute. reflexivity.
Defined.

Lemma current_state_transport_failure_witness :
  ∃ w', current_state (world_of (primary running) unreachable [])
        = (Returned unknown, w')
        ∧ state (self w') = unknown
        ∧ logged w'
          = (logged (world_of (primary running) unreachable [])
               ++ [LogLine warning
                     (vm_name (self (world_of (primary running) unreachable [])))
                     "Cannot connect to the LXD socket"])%list.
Proof.
  apply (current_state_transport_failure
           (world_of (primary running) unreachable [])
           "Cannot connect to the LXD socket" unreachable).
  vm_compute. reflexivity.
Defined.

(** ** [stop] *)

Section stop_facts.
Context {R : Type} `{!Daemon R}.

Lemma request_state_inv (new_state : string) (w : World R) o w' :
  request_state new_state w = (o, w') →
  self w' = self w ∧ persisted w' = persisted w ∧ wakeups w' = wakeups w
  ∧ logged w' = logged w
  ∧ (o = Returned () ∨ ∃ e, o = Thrown e).
Proof.
  unfold request_state, try_catch. unfold_M.
  destruct (lxd_request _ _ _ _ w) as [o1 w1] eqn:H1.
  apply lxd_request_inv in H1 as (Hs & Hp & Hw & Hl & _ & Ho).
  destruct Ho as [[reply ->]|[e ->]].
  - destruct (lxd_wait _ _ _ w1) as [o2 w2] eqn:H2.
    apply lxd_wait_inv in H2 as (Hs2 & Hp2 & Hw2 & Hl2 & _ & Ho2).
    destruct Ho2 as [[reply2 ->]|[e ->]].
    + intros [= <- <-]. repeat split; try congruence. by left.
    + destruct e; intros [= <- <-]; repeat split; try congruence; eauto.
  - intros [= <- <-]. repeat split; try congruence. eauto.
Qed.

(** C2 as amended: when the state [stop] re-derives is stopped or
    suspended, [stop] returns after the state query alone (no stop request),
    the cached port and what the monitor persisted are as before, and the
    cached state is the re-derived one; the object is untouched when its
    cache already held that state. *)
Theorem stop_ignored_when_stopped_or_suspended (w w1 : World R) (s : State) :
  current_state w = (Returned s, w1) →
  s = stopped ∨ s = suspended →
  ∃ w', stop w = (Returned (), w')
        ∧ calls w'
          = (calls w ++ [Requested (Req "GET" (state_url (self w)) None None)])%list
        ∧ port (self w') = port (self w)
        ∧ persisted w' = persisted w
        ∧ state (self w') = s
        ∧ (state (self w) = s → self w' = self w).
Proof.
  intros Hc Hs.
  pose proof (current_state_inv _ _ _ Hc) as (Hcalls & Hp & _ & Hself & Ho).
  destruct Ho as [(s' & [= <-] & Hst)|[e [=]]].
  assert (Hport : port (self w1) = port (self w)) by (by rewrite Hself).
  assert (Hsame : state (self w) = s → self w1 = self w).
  { intros E. rewrite Hself, Hst, <- E. by destruct (self w). }
  unfold stop. unfold_M. rewrite Hc.
  destruct Hs as [-> | ->]; cbn; eexists; (split; [reflexivity|]); cbn; auto.
Qed.

(** How the wait on [state_wait] ends: with the flag set exactly when it
    was set before or the signal is among the wake-ups; nothing else of the
    object changes. *)
Lemma wait_until_shutdown_while_starting (ws : list Wake) (vm : LXDVirtualMachine) :
  ∃ b vm' ws',
    wait_until shutdown_while_starting ws vm = (b, vm', ws')
    ∧ vm' = set_shutdown_while_starting (shutdown_while_starting vm') vm
    ∧ (b = true → shutdown_while_starting vm' = true)
    ∧ (b = true ↔ shutdown_while_starting vm = true ∨ shutdown_signal ∈ ws).
Proof.
  revert vm. induction ws as [|a ws IH]; intros vm; cbn.
  - destruct (shutdown_while_starting vm) eqn:E.
    + eexists _, _, _. split; [reflexivity|]. rewrite E.
      repeat split; auto. destruct vm; cbn in *; by subst.
    + eexists _, _, _. split; [reflexivity|]. rewrite E.
      repeat split; try done.
      * destruct vm; cbn in *; by subst.
      * intros [?|Hin]; [done|]. by apply elem_of_nil in Hin.
  - destruct (shutdown_while_starting vm) eqn:E.
    + eexists _, _, _. split; [reflexivity|]. rewrite E.
      repeat split; auto. destruct vm; cbn in *; by subst.
    + destruct (IH (deliver a vm)) as (b & vm' & ws' & Hw & Hvm & Hb & Hiff).
      exists b, vm', ws'. split; [exact Hw|]. split; [|split; [exact Hb|]].
      * rewrite Hvm at 1. by destruct a, vm.
      * rewrite Hiff, elem_of_cons. destruct a; cbn.
        -- rewrite E. intuition congruence.
        -- intuition congruence.
Qed.

(** C8: when the state [stop] re-derives is starting, [stop] returns only
    with the shutdown-while-starting signal delivered, and then the cached
    state is stopped and the cached port is cleared; without the signal it
    stays blocked on the condition variable; with it (and the stop request
    accepted) it does return. *)
Theorem stop_while_starting (w w1 : World R) :
  current_state w = (Returned starting, w1) →
  (∀ w', stop w = (Returned (), w') →
     (shutdown_while_starting (self w) = true ∨ shutdown_signal ∈ wakeups w)
     ∧ shutdown_while_starting (self w') = true
     ∧ state (self w') = stopped
     ∧ port (self w') = None)
  ∧ (∀ w2, request_state "stop" w1 = (Returned (), w2) →
     shutdown_while_starting (self w) = false →
     shutdown_signal ∉ wakeups w →
     fst (stop w) = Blocked)
  ∧ (∀ w2, request_state "stop" w1 = (Returned (), w2) →
     shutdown_while_starting (self w) = true ∨ shutdown_signal ∈ wakeups w →
     ∃ w', stop w = (Returned (), w')).
Proof.
  intros Hc.
  pose proof (current_state_inv _ _ _ Hc) as (_ & _ & Hw1 & Hself & _).
  assert (Hflag : shutdown_while_starting (self w1) = shutdown_while_starting (self w))
    by (by rewrite Hself).
  unfold stop. unfold_M. rewrite Hc.
  rewrite (bool_decide_false (starting = stopped)) by done.
  rewrite (bool_decide_false (starting = suspended)) by done.
  rewrite (bool_decide_true (starting = starting)) by done.
  destruct (request_state "stop" w1) as [o2 w2] eqn:Hr.
  pose proof (request_state_inv _ _ _ _ Hr) as (Hs2 & _ & Hw2 & _ & Ho2).
  destruct (wait_until_shutdown_while_starting (wakeups w2) (set_state stopped (self w2)))
    as (b & vm' & ws' & Hwait & Hvm & Hb & Hiff).
  cbn in Hiff. rewrite Hw2, Hw1, Hs2, Hflag in Hiff.
  destruct Ho2 as [-> | [e ->]].
  - unfold condition_wait. cbn. rewrite Hwait.
    destruct b.
    + split; [|split].
      * intros w' Hret. split; [by apply Hiff|].
        cbn in Hret. destruct (update_shutdown_status vm');
          injection Hret as <-; cbn; rewrite Hvm; cbn; auto.
      * intros ? _ Hf Hn. exfalso. destruct Hiff as [Hiff _].
        destruct (Hiff eq_refl); congruence.
      * intros ? _ _. cbn. destruct (update_shutdown_status vm'); eauto.
    + split; [|split].
      * intros w' [=].
      * by intros.
      * intros ? _ Hd. apply Hiff in Hd. done.
  - split; [|split]; [intros w' [=] | intros ? [=] | intros ? [=]].
Qed.

(** C10: [ssh_port] returns 22 in every world, the one [stop] leaves
    behind included, and with the cached port cleared or set to anything
    else: the field is not read. *)
Theorem ssh_port_is_22 (w : World R) :
  ssh_port w = (Returned 22, w)
  ∧ ssh_port (snd (stop w)) = (Returned 22, snd (stop w))
  ∧ ∀ p, fst (ssh_port (with_self (set_port p) w)) = fst (ssh_port w).
Proof. repeat split. Qed.

End stop_facts.

Lemma stop_ignored_when_stopped_or_suspended_witness :
  ∃ w', stop (world_of (primary running)
                (lxd_with_status (primary running) "Stopped" 102) [])
        = (Returned (), w')
        ∧ calls w'
          = (calls (world_of (primary running)
                      (lxd_with_status (primary running) "Stopped" 102) [])
               ++ [Requested (Req "GET"
                     (state_url (self (world_of (primary running)
                        (lxd_with_status (primary running) "Stopped" 102) [])))
                     None None)])%list
        ∧ port (self w')
          = port (self (world_of (primary running)
                          (lxd_with_status (primary running) "Stopped" 102) []))
        ∧ persisted w'
          = persisted (world_of (primary running)
                         (lxd_with_status (primary running) "Stopped" 102) [])
        ∧ state (self w') = stopped
        ∧ (state (self (world_of (primary running)
                          (lxd_with_status (primary running) "Stopped" 102) []))
           = stopped →
           self w' = self (world_of (primary running)
                             (lxd_with_status (primary running) "Stopped" 102) [])).
Proof.
  apply (stop_ignored_when_stopped_or_suspended
           (world_of (primary running)
              (lxd_with_status (primary running) "Stopped" 102) [])
           (snd (current_state
                   (world_of (primary running)
                      (lxd_with_status (primary running) "Stopped" 102) [])))
           stopped).
  - vm_compute. reflexivity.
  - left. reflexivity.
Defined.

(** The claim as the spec words it fails where the cache lags the daemon:
    the cache says running, the daemon says stopped, and [stop] leaves the
    cache at stopped. *)
Lemma stop_overwrites_cached_state :
  ¬ (∀ (w w1 : World Store) (s : State),
       current_state w = (Returned s, w1) →
       s = stopped ∨ s = suspended →
       state (self (snd (stop w))) = state (self w)).
Proof.
  intros H.
  specialize (H (world_of (primary running)
                   (lxd_with_status (primary running) "Stopped" 102) [])
                (snd (current_state
                        (world_of (primary running)
                           (lxd_with_status (primary running) "Stopped" 102) [])))
                stopped).
  assert (E : stopped = running); [|discriminate E].
  apply H; [vm_compute; reflexivity | by left].
Qed.

(** ** Resizing *)

Section resize_facts.
Context {R : Type} `{!Daemon R}.

(** C9 as amended: the three operations check their argument with
    [assert] and nothing else.  In a build with the assertions in it a core
    count or a size that is not positive aborts on the first assertion, the
    world untouched and no request made.  On an instance that has its
    manager, no assertion fails and the PATCH request is issued with the
    argument in decimal, both for every positive argument in either build
    and for every argument at all in a build with [NDEBUG]. *)
Theorem resize_preconditions (NDEBUG : bool) (w : World R) (n : Z) :
  (NDEBUG = false → n ≤ 0 →
     update_cpus NDEBUG n w = (Aborted, w)
     ∧ resize_memory NDEBUG (Bytes n) w = (Aborted, w)
     ∧ resize_disk NDEBUG (Bytes n) w = (Aborted, w))
  ∧ (manager (self w) = true → n > 0 ∨ NDEBUG = true →
     let patch (body : QJsonObject) :=
       Requested (Req "PATCH" (url (self w)) (Some body) None) in
     (fst (update_cpus NDEBUG n w) ≠ Aborted
      ∧ calls (snd (update_cpus NDEBUG n w))
        = (calls w ++
           [patch {[ "config" :=
                       JObject {[ "limits.cpu" := JString (QString_number n) ]} ]}])%list)
     ∧ (fst (resize_memory NDEBUG (Bytes n) w) ≠ Aborted
        ∧ calls (snd (resize_memory NDEBUG (Bytes n) w))
          = (calls w ++
             [patch {[ "config" :=
                         JObject {[ "limits.memory" := JString (QString_number n) ]} ]}])%list)
     ∧ (fst (resize_disk NDEBUG (Bytes n) w) ≠ Aborted
        ∧ calls (snd (resize_disk NDEBUG (Bytes n) w))
          = (calls w ++
             [patch {[ "devices" :=
                         JObject {[ "root" :=
                           JObject (<[ "path" := JString "/" ]>
                                    (<[ "pool" := JString (storage_pool (self w)) ]>
                                    (<[ "size" := JString (QString_number n) ]>
                                    {[ "type" := JString "disk" ]}))) ]} ]}])%list)).
Proof.
  split.
  - intros -> Hn. unfold update_cpus, resize_memory, resize_disk. unfold_M. cbn.
    rewrite bool_decide_false by lia. done.
  - intros Hm Hn. unfold update_cpus, resize_memory, resize_disk. unfold_M.
    unfold lxd_request. destruct NDEBUG.
    + cbn -[QString_number].
      repeat split;
        match goal with
        | |- context [lxd_request_reply ?q ?r] =>
            destruct (lxd_request_reply q r) as [[e|reply] r']; cbn; done
        end.
    + destruct Hn as [Hn|[=]].
      cbn -[QString_number]. rewrite bool_decide_true by lia. rewrite Hm.
      repeat split;
        match goal with
        | |- context [lxd_request_reply ?q ?r] =>
            destruct (lxd_request_reply q r) as [[e|reply] r']; cbn; done
        end.
Qed.

End resize_facts.

Lemma resize_preconditions_witness :
  update_cpus false 0 resizable_world = (Aborted, resizable_world)
  ∧ fst (update_cpus false 3 resizable_world) ≠ Aborted
  ∧ fst (update_cpus true 3 resizable_world) ≠ Aborted
  ∧ calls (snd (update_cpus true 0 resizable_world))
    = [Requested (Req "PATCH" (url (primary stopped))
         (Some {[ "config" := JObject {[ "limits.cpu" := JString (QString_number 0) ]} ]})
         None)].
Proof.
  pose proof (resize_preconditions false resizable_world 0) as [Hbad _].
  pose proof (resize_preconditions false resizable_world 3) as [_ Hdebug].
  pose proof (resize_preconditions true resizable_world 3) as [_ Hrelease].
  pose proof (resize_preconditions true resizable_world 0) as [_ Hzero].
  split; [|split; [|split]].
  - apply Hbad; [reflexivity | lia].
  - apply Hdebug; [reflexivity | left; lia].
  - apply Hrelease; [reflexivity | left; lia].
  - apply Hzero; [reflexivity | by right].
Defined.

(** The claim as the spec words it fails in a build with [NDEBUG]: there
    the assertions are gone and a core count of 0 is sent to the daemon. *)
Lemma resize_unchecked_with_NDEBUG :
  ¬ (∀ (NDEBUG : bool) (w : World Store) (n : Z),
       n ≤ 0 →
       fst (update_cpus NDEBUG n w) = Aborted
       ∧ calls (snd (update_cpus NDEBUG n w)) = calls w).
Proof.
  intros H. destruct (H true resizable_world 0) as [Habort _]; [lia|].
  vm_compute in Habort. discriminate Habort.
Qed.

(** What the daemon is sent in that build. *)
Example update_cpus_zero_with_NDEBUG :
  update_cpus true 0 resizable_world
  = (Returned (),
     with_remote (remote resizable_world)
       (Requested (Req "PATCH" (url (primary stopped))
          (Some {[ "config" := JObject {[ "limits.cpu" := JString "0" ]} ]}) None))
       resizable_world).
Proof. vm_compute. reflexivity. Qed.

(** ** The lease scan *)

Section get_ip_for_facts.
Context {R : Type} `{!Daemon R}.
Context {IPAddress : Type} (IPAddress_of : string → option IPAddress).

Abbreviation hwaddr lease := (toString (value (toObject lease) "hwaddr")).
Abbreviation address lease := (toString (value (toObject lease) "address")).

Lemma get_ip_for_leases_no_match (mac_addr : string) (leases : QJsonArray) :
  (∀ lease, lease ∈ leases → hwaddr lease ≠ mac_addr) →
  get_ip_for_leases IPAddress_of mac_addr leases = None.
Proof.
  induction leases as [|lease rest IH]; intros Hno; cbn; [done|].
  destruct (decide _) as [E|_].
  - exfalso. by apply (Hno lease); [left|].
  - apply IH. intros l Hl. apply Hno. by right.
Qed.

Lemma get_ip_for_leases_first (mac_addr : string) (pre post : QJsonArray)
    (lease : QJsonValue) (ip : IPAddress) :
  (∀ l, l ∈ pre → hwaddr l = mac_addr → IPAddress_of (address l) = None) →
  hwaddr lease = mac_addr →
  IPAddress_of (address lease) = Some ip →
  get_ip_for_leases IPAddress_of mac_addr (pre ++ lease :: post) = Some ip.
Proof.
  intros Hpre Hm Hip. induction pre as [|l pre IH]; cbn.
  - rewrite decide_True by done. by rewrite Hip.
  - assert (IH' : get_ip_for_leases IPAddress_of mac_addr (pre ++ lease :: post) = Some ip).
    { apply IH. intros l' Hl'. apply Hpre. by right. }
    destruct (decide _) as [E|_]; [|done].
    rewrite (Hpre l) by (by left || done). done.
Qed.

(** C6: [get_ip_for] returns no address when no lease has the queried
    hardware address; it returns the address of the first lease that has it
    and whose address is well formed, the matching leases before it with a
    malformed address being passed over; so a malformed matching lease
    followed by a well-formed one resolves to the latter. *)
Theorem get_ip_for_scan (w : World R) (mac_addr u : string)
    (reply : QJsonObject) (r' : R) :
  lxd_request_reply (Req "GET" u None None) (remote w) = (inr reply, r') →
  ∃ found w',
    get_ip_for IPAddress_of mac_addr u w = (Returned found, w')
    ∧ ((∀ lease, lease ∈ toArray (value reply "metadata") → hwaddr lease ≠ mac_addr) →
       found = None)
    ∧ (∀ pre lease post ip,
         toArray (value reply "metadata") = (pre ++ lease :: post)%list →
         hwaddr lease = mac_addr →
         IPAddress_of (address lease) = Some ip →
         (∀ l, l ∈ pre → hwaddr l = mac_addr → IPAddress_of (address l) = None) →
         found = Some ip)
    ∧ (∀ bad good rest ip,
         toArray (value reply "metadata") = bad :: good :: rest →
         hwaddr bad = mac_addr → IPAddress_of (address bad) = None →
         hwaddr good = mac_addr → IPAddress_of (address good) = Some ip →
         found = Some ip).
Proof.
  intros Hq. unfold get_ip_for. unfold_M.
  rewrite (lxd_request_returned _ _ _ _ _ _ _ Hq).
  eexists _, _. split; [reflexivity|]. split; [|split].
  - apply get_ip_for_leases_no_match.
  - intros pre lease post ip -> Hm Hip Hpre. by apply get_ip_for_leases_first.
  - intros bad good rest ip -> Hb Hbad Hg Hgood.
    apply (get_ip_for_leases_first mac_addr [bad] rest good ip); [|done..].
    intros l Hl _. apply list_elem_of_singleton in Hl. by subst.
Qed.

End get_ip_for_facts.

(** ** The mount handler *)

Section lxd_mount_handler_facts.
Context {R : Type} `{!Daemon R}.
Context (make_uuid : string → string) (lxd_socket_url : string).

(** [lxd_device_add] first reads the instance; when that read returns, it
    writes the metadata back with the handler's device merged into the
    device map it has just read. *)
Lemma lxd_device_add_calls (h : LXDMountHandler) (w : World R) :
  ∃ rest,
    calls (snd (lxd_device_add lxd_socket_url h w))
    = (calls w ++ Requested (Req "GET" (lxd_instance_endpoint h) None None) :: rest)%list
    ∧ ∀ reply r',
        lxd_request_reply (Req "GET" (lxd_instance_endpoint h) None None) (remote w)
        = (inr reply, r') →
        let metadata := toObject (value reply "metadata") in
        ∃ rest',
          rest = Requested (Req "PUT" (lxd_instance_endpoint h)
                   (Some (<[ "devices" :=
                              JObject (<[ device_name_ h := device_of h ]>
                                         (toObject (value metadata "devices"))) ]>
                            metadata))
                   None) :: rest'.
Proof.
  unfold lxd_device_add. unfold_M. unfold lxd_request at 1.
  destruct (lxd_request_reply _ (remote w)) as [[e|reply] r'] eqn:Hq; cbn -[lxd_request lxd_wait].
  - exists []. split; [done|]. intros ?? [=].
  - match goal with
    | |- context [lxd_request ?m ?u ?d ?t ?w0] =>
        destruct (lxd_request m u d t w0) as [o1 w1] eqn:H1
    end.
    apply lxd_request_inv in H1 as (_ & _ & _ & _ & Hc1 & Ho1).
    destruct Ho1 as [[reply1 ->]|[e ->]].
    + match goal with
      | |- context [lxd_wait ?b ?task ?t ?w0] =>
          destruct (lxd_wait b task t w0) as [o2 w2] eqn:H2
      end.
      apply lxd_wait_inv in H2 as (_ & _ & _ & _ & Hc2 & Ho2).
      eexists (_ :: [_]). split.
      * destruct Ho2 as [[? ->]|[? ->]]; cbn; rewrite Hc2, Hc1; cbn;
          rewrite <- !app_assoc; reflexivity.
      * intros ?? [= <- <-]. eexists. reflexivity.
    + eexists [_]. split.
      * cbn. rewrite Hc1. cbn. rewrite <- !app_assoc. reflexivity.
      * intros ?? [= <- <-]. eexists. reflexivity.
Qed.

(** C3: when the instance's current state is neither off nor stopped the
    constructor throws the runtime error that asks to stop the instance,
    having made no call but the state query; when it is off or stopped the
    constructor logs and goes on to [lxd_device_add], which reads the
    instance and writes the device map with the new device in it. *)
Theorem mount_handler_needs_stopped_instance (w w1 : World R) (s : State)
    (target_path source_path : string) :
  current_state w = (Returned s, w1) →
  let h := MountHandler target_path source_path
             (lxd_socket_url +:+ "/instances/" +:+ vm_name (self w))
             (device_name_for make_uuid target_path) in
  let new := LXDMountHandler_new make_uuid lxd_socket_url target_path source_path in
  let state_query := Requested (Req "GET" (state_url (self w)) None None) in
  (s ≠ off → s ≠ stopped →
     new w = (Thrown (runtime_error ("Please stop the instance " +:+ vm_name (self w)
                                       +:+ " before mount it natively.")), w1)
     ∧ calls w1 = (calls w ++ [state_query])%list)
  ∧ (s = off ∨ s = stopped →
     new w
     = (lxd_device_add lxd_socket_url h;; mret h)
         (with_log (LogLine info category
                      ("initializing native mount " +:+ source_path +:+ " => "
                         +:+ target_path +:+ " in '" +:+ vm_name (self w) +:+ "'"))
                   w1)
     ∧ ∃ rest,
         calls (snd (new w))
         = (calls w ++ state_query
              :: Requested (Req "GET" (lxd_instance_endpoint h) None None) :: rest)%list
         ∧ ∀ reply r',
             lxd_request_reply (Req "GET" (lxd_instance_endpoint h) None None) (remote w1)
             = (inr reply, r') →
             let metadata := toObject (value reply "metadata") in
             ∃ rest',
               rest = Requested (Req "PUT" (lxd_instance_endpoint h)
                        (Some (<[ "devices" :=
                                   JObject (<[ device_name_ h := device_of h ]>
                                              (toObject (value metadata "devices"))) ]>
                                 metadata))
                        None) :: rest').
Proof.
  intros Hc h new state_query.
  pose proof (current_state_inv _ _ _ Hc) as (Hcalls & _).
  subst new. unfold LXDMountHandler_new. unfold_M. rewrite Hc. split.
  - intros Hoff Hstopped.
    rewrite (bool_decide_true (s ≠ off)), (bool_decide_true (s ≠ stopped)) by done.
    done.
  - intros Hs.
    assert (bool_decide (s ≠ off) && bool_decide (s ≠ stopped) = false) as ->.
    { destruct Hs as [-> | ->]; reflexivity. }
    split; [reflexivity|].
    destruct (lxd_device_add_calls h
                (with_log (LogLine info category
                      ("initializing native mount " +:+ source_path +:+ " => "
                         +:+ target_path +:+ " in '" +:+ vm_name (self w) +:+ "'"))
                   w1)) as (rest & Hrest & Hput).
    exists rest. split; [|exact Hput].
    cbn [source target]. cbn [calls with_log] in Hrest.
    rewrite Hcalls, <- app_assoc in Hrest. subst h state_query. revert Hrest.
    match goal with
    | |- context [lxd_device_add ?u ?h0 ?w0] =>
        destruct (lxd_device_add u h0 w0) as [o2 w2]
    end.
    by destruct o2.
Qed.

End lxd_mount_handler_facts.

(** ** Devices on the store daemon *)

Section store_facts.
Context (lxd_socket_url : string).

Lemma Store_get (u : string) d t (s : Store) (v : QJsonValue) :
  reachable s = true →
  resources s !! u = Some v →
  Store_request (Req "GET" u d t) s = (inr (<[ "metadata" := v ]> acknowledged), s).
Proof.
  intros Hr Hv. unfold Store_request. cbn [req_url method]. rewrite Hr, Hv. cbn [negb].
  by rewrite decide_True.
Qed.

Lemma Store_put (u : string) body t (s : Store) (v : QJsonValue) :
  reachable s = true →
  resources s !! u = Some v →
  Store_request (Req "PUT" u (Some body) t) s
  = (inr acknowledged, MkStore true (<[ u := JObject body ]> (resources s))).
Proof.
  intros Hr Hv. unfold Store_request. cbn [req_url method data]. rewrite Hr, Hv.
  cbn [negb]. rewrite decide_False by done. by rewrite decide_True.
Qed.

Lemma value_insert (o : QJsonObject) (k : string) (v : QJsonValue) :
  value (<[ k := v ]> o) k = v.
Proof. unfold value. by rewrite lookup_insert_eq. Qed.

(** What [lxd_device_add] does to the store: the device map gains the
    handler's device under the handler's name and keeps the rest. *)
Lemma lxd_device_add_store (h : LXDMountHandler) (w : World Store) (v : QJsonValue) :
  reachable (remote w) = true →
  resources (remote w) !! lxd_instance_endpoint h = Some v →
  ∃ w', lxd_device_add lxd_socket_url h w = (Returned (), w')
        ∧ reachable (remote w') = true
        ∧ (∀ u, u ≠ lxd_instance_endpoint h →
                resources (remote w') !! u = resources (remote w) !! u)
        ∧ is_Some (resources (remote w') !! lxd_instance_endpoint h)
        ∧ device_map (remote w') (lxd_instance_endpoint h)
          = <[ device_name_ h := device_of h ]>
              (device_map (remote w) (lxd_instance_endpoint h)).
Proof.
  intros Hr Hv. unfold lxd_device_add. unfold_M.
  unfold lxd_request at 1. cbn [lxd_request_reply Store_Daemon].
  rewrite (Store_get _ _ _ _ _ Hr Hv). cbn [with_remote remote].
  unfold lxd_request. cbn [lxd_request_reply Store_Daemon remote with_remote].
  rewrite (Store_put _ _ _ _ _ Hr Hv).
  unfold lxd_wait. cbn [lxd_wait_reply Store_Daemon Store_wait].
  eexists. split; [reflexivity|]. cbn [remote with_remote reachable resources].
  split; [done|]. split; [|split].
  - intros u Hu. by rewrite lookup_insert_ne.
  - rewrite lookup_insert_eq. eauto.
  - unfold device_map. cbn [resources]. rewrite lookup_insert_eq, Hv.
    cbn [from_option toObject]. unfold id. cbn [toObject].
    by rewrite !value_insert.
Qed.

Lemma lxd_device_remove_store (h : LXDMountHandler) (w : World Store) (v : QJsonValue) :
  reachable (remote w) = true →
  resources (remote w) !! lxd_instance_endpoint h = Some v →
  ∃ w', lxd_device_remove lxd_socket_url h w = (Returned (), w')
        ∧ reachable (remote w') = true
        ∧ (∀ u, u ≠ lxd_instance_endpoint h →
                resources (remote w') !! u = resources (remote w) !! u)
        ∧ device_map (remote w') (lxd_instance_endpoint h)
          = delete (device_name_ h)
              (device_map (remote w) (lxd_instance_endpoint h)).
Proof.
  intros Hr Hv. unfold lxd_device_remove. unfold_M.
  unfold lxd_request at 1. cbn [lxd_request_reply Store_Daemon].
  rewrite (Store_get _ _ _ _ _ Hr Hv). cbn [with_remote remote].
  unfold lxd_request. cbn [lxd_request_reply Store_Daemon remote with_remote].
  rewrite (Store_put _ _ _ _ _ Hr Hv).
  unfold lxd_wait. cbn [lxd_wait_reply Store_Daemon Store_wait].
  eexists. split; [reflexivity|]. cbn [remote with_remote reachable resources].
  split; [done|]. split.
  - intros u Hu. by rewrite lookup_insert_ne.
  - unfold device_map. cbn [resources]. rewrite lookup_insert_eq, Hv.
    cbn [from_option toObject]. unfold id. cbn [toObject].
    by rewrite !value_insert.
Qed.

(** C4: on a daemon that keeps what is put, attaching a target's device
    and then detaching it leaves the device map that was there with the
    target's device name absent and every other entry as it was; the attach
    itself keeps every other entry; and detaching a name that is absent
    returns normally and leaves the device map as it was. *)
Theorem attach_then_detach (h : LXDMountHandler) (w : World Store) (v : QJsonValue) :
  reachable (remote w) = true →
  resources (remote w) !! lxd_instance_endpoint h = Some v →
  let devices (x : World Store) := device_map (remote x) (lxd_instance_endpoint h) in
  (∃ w1 w2,
     lxd_device_add lxd_socket_url h w = (Returned (), w1)
     ∧ lxd_device_remove lxd_socket_url h w1 = (Returned (), w2)
     ∧ devices w1 = <[ device_name_ h := device_of h ]> (devices w)
     ∧ devices w2 = delete (device_name_ h) (devices w)
     ∧ devices w2 !! device_name_ h = None
     ∧ (∀ k, k ≠ device_name_ h →
             devices w1 !! k = devices w !! k ∧ devices w2 !! k = devices w !! k))
  ∧ (devices w !! device_name_ h = None →
     ∃ w', lxd_device_remove lxd_socket_url h w = (Returned (), w')
           ∧ devices w' = devices w).
Proof.
  intros Hr Hv devices. split.
  - destruct (lxd_device_add_store h w v Hr Hv) as (w1 & Ha & Hr1 & _ & [v1 Hv1] & Hd1).
    destruct (lxd_device_remove_store h w1 v1 Hr1 Hv1) as (w2 & Hb & _ & _ & Hd2).
    exists w1, w2. subst devices. cbn beta.
    rewrite Hd2, Hd1. rewrite delete_insert_eq.
    repeat split; try done.
    + apply lookup_delete_eq.
    + by rewrite lookup_insert_ne.
    + by rewrite lookup_delete_ne.
  - intros Habsent.
    destruct (lxd_device_remove_store h w v Hr Hv) as (w' & Hb & _ & _ & Hd).
    exists w'. split; [done|]. subst devices. cbn beta in *.
    rewrite Hd. by apply delete_id.
Qed.

End store_facts.

(** ** The theorems at work on the store daemon *)

(** Stopping the booting instance: the stop request is accepted and the
    second wake-up is the signal. *)
Lemma stop_while_starting_witness :
  current_state booting_world = (Returned starting, snd (current_state booting_world))
  ∧ ∃ w', stop booting_world = (Returned (), w')
          ∧ shutdown_while_starting (self w') = true
          ∧ state (self w') = stopped
          ∧ port (self w') = None.
Proof.
  assert (Hc : current_state booting_world
               = (Returned starting, snd (current_state booting_world)))
    by (vm_compute; reflexivity).
  split; [exact Hc|].
  destruct (stop_while_starting booting_world _ Hc) as (Hret & _ & Hgo).
  destruct (Hgo (snd (request_state "stop" (snd (current_state booting_world)))))
    as [w' Hw'].
  - vm_compute. reflexivity.
  - right. vm_compute. right. left.
  - exists w'. split; [exact Hw'|]. apply (Hret w' Hw').
Defined.

(** Without the signal the same call stays blocked. *)
Example stop_blocks_without_signal :
  fst (stop (with_wakeups [spurious; spurious] booting_world)) = Blocked.
Proof. vm_compute. reflexivity. Qed.

(** Mounting on the running instance is refused. *)
Lemma mount_handler_needs_stopped_instance_witness :
  current_state running_world = (Returned running, snd (current_state running_world))
  ∧ fst (LXDMountHandler_new example_make_uuid example_socket_url
           "/home/user/proj" "/host/proj" running_world)
    = Thrown (runtime_error "Please stop the instance primary before mount it natively.").
Proof.
  assert (Hc : current_state running_world
               = (Returned running, snd (current_state running_world)))
    by (vm_compute; reflexivity).
  split; [exact Hc|].
  destruct (mount_handler_needs_stopped_instance example_make_uuid example_socket_url
              running_world _ running "/home/user/proj" "/host/proj" Hc)
    as [Hrefuse _].
  destruct Hrefuse as [-> _]; [discriminate | discriminate | reflexivity].
Defined.

(** Mounting on the stopped instance adds the device next to the root disk. *)
Example mount_on_stopped_instance :
  let w' := snd (LXDMountHandler_new example_make_uuid example_socket_url
                   "/home/user/proj" "/host/proj" stopped_world) in
  fst (LXDMountHandler_new example_make_uuid example_socket_url
         "/home/user/proj" "/host/proj" stopped_world) = Returned example_handler
  ∧ device_map (remote w') (lxd_instance_endpoint example_handler)
      !! "d_0f1e2d3c-4b5a-6978-8796-a"
    = Some (device_of example_handler)
  ∧ device_map (remote w') (lxd_instance_endpoint example_handler) !! "root"
    = Some (JObject {[ "type" := JString "disk" ]}).
Proof. vm_compute. repeat split; reflexivity. Qed.

Lemma attach_then_detach_witness :
  ∃ w1 w2,
    lxd_device_add example_socket_url example_handler stopped_world = (Returned (), w1)
    ∧ lxd_device_remove example_socket_url example_handler w1 = (Returned (), w2)
    ∧ device_map (remote w2) (lxd_instance_endpoint example_handler)
      = delete (device_name_ example_handler)
          (device_map (remote stopped_world) (lxd_instance_endpoint example_handler)).
Proof.
  destruct (attach_then_detach example_socket_url example_handler stopped_world
              (JObject {[ "devices" :=
                 JObject {[ "root" := JObject {[ "type" := JString "disk" ]} ]} ]}))
    as [(w1 & w2 & Ha & Hb & _ & Hd & _) _].
  - reflexivity.
  - vm_compute. reflexivity.
  - exists w1, w2. auto.
Defined.

(** The first lease of the instance's MAC address is malformed, the second
    resolves. *)
Lemma get_ip_for_scan_witness :
  ∃ w', get_ip_for example_IPAddress_of (mac_addr (primary running))
          (network_leases_url (primary running)) leases_world
        = (Returned (Some "10.0.0.5"), w').
Proof.
  destruct (get_ip_for_scan example_IPAddress_of leases_world
              (mac_addr (primary running)) (network_leases_url (primary running))
              (<[ "metadata" :=
                    JArray [lease "52:54:00:aa:bb:cc" "10.0.0.";
                            lease "52:54:00:aa:bb:cc" "10.0.0.5"] ]> acknowledged)
              (remote leases_world))
    as (found & w' & Hrun & _ & _ & Hsecond).
  - vm_compute. reflexivity.
  - exists w'. rewrite Hrun. f_equal. f_equal.
    apply (Hsecond (lease "52:54:00:aa:bb:cc" "10.0.0.")
                   (lease "52:54:00:aa:bb:cc" "10.0.0.5") []);
      vm_compute; reflexivity.
Defined.

(** No lease for a MAC address the table does not have. *)
Example get_ip_for_absent :
  fst (get_ip_for example_IPAddress_of "52:54:00:00:00:01"
         (network_leases_url (primary running)) leases_world)
  = Returned None.
Proof. vm_compute. reflexivity. Qed.

(** * More of the backend *)

(** ** [request_state] and [current_state] *)

Section state_requests.
Context {R : Type} `{!Daemon R}.

(** X1: [request_state] lets every failure of the PUT through, the
    not-found one included, without waiting; once the PUT is answered, a
    not-found raised by the wait is swallowed and any other exception of the
    wait goes on to the caller. *)
Theorem request_state_failures (new_state : string) (w : World R) :
  (∀ e r1,
     lxd_request_reply (state_request (self w) new_state) (remote w) = (inl e, r1) →
     request_state new_state w
     = (Thrown e, with_remote r1 (Requested (state_request (self w) new_state)) w))
  ∧ (∀ task r1 e r2,
       lxd_request_reply (state_request (self w) new_state) (remote w) = (inr task, r1) →
       lxd_wait_reply (base_url (self w)) task 60000 r1 = (inl e, r2) →
       request_state new_state w
       = (match e with LXDNotFoundException => Returned () | _ => Thrown e end,
          with_remote r2 (Waited (base_url (self w)) task 60000)
            (with_remote r1 (Requested (state_request (self w) new_state)) w))).
Proof.
  split.
  - intros e r1 Hq. unfold request_state, try_catch, state_request in *. unfold_M.
    by rewrite (lxd_request_thrown _ _ _ _ _ _ _ Hq).
  - intros task r1 e r2 Hq Hw.
    unfold request_state, try_catch, state_request in *. unfold_M.
    rewrite (lxd_request_returned _ _ _ _ _ _ _ Hq).
    unfold lxd_wait. cbn [self remote with_remote]. rewrite Hw.
    by destruct e.
Qed.

(** The first call of [request_state] is its PUT. *)
Lemma request_state_calls (new_state : string) (w : World R) :
  ∃ rest, calls (snd (request_state new_state w))
          = (calls w ++ Requested (state_request (self w) new_state) :: rest)%list.
Proof.
  unfold request_state, try_catch, state_request. unfold_M. unfold lxd_request.
  destruct (lxd_request_reply _ _) as [[e|task] r1]; cbn [fst snd].
  - by exists [].
  - unfold lxd_wait. cbn [self remote with_remote].
    destruct (lxd_wait_reply _ _ _ _) as [[e|reply] r2]; [destruct e|];
      cbn; rewrite <- app_assoc; by eexists.
Qed.

(** What [current_state] does with an exception it does not catch. *)
Lemma current_state_rethrows (w : World R) (e : exception) (r' : R) :
  lxd_request_reply (state_query (self w)) (remote w) = (inl e, r') →
  (∀ what, e ≠ LocalSocketConnectionException what) →
  current_state w = (Thrown e, with_remote r' (Requested (state_query (self w))) w).
Proof.
  intros Hq Hne. unfold current_state, try_catch, instance_state_for, state_query in *.
  unfold_M. rewrite (lxd_request_thrown _ _ _ _ _ _ _ Hq).
  destruct e; [by destruct (Hne what)|done..].
Qed.

(** X2: an exception of the state query that is not the local socket's
    goes through [current_state] to the caller, not-found included; the
    query is in the trace, and the object, the log and the monitor are as
    before. *)
Theorem current_state_propagates (w : World R) (e : exception) (r' : R) :
  lxd_request_reply (state_query (self w)) (remote w) = (inl e, r') →
  (∀ what, e ≠ LocalSocketConnectionException what) →
  ∃ w', current_state w = (Thrown e, w')
        ∧ self w' = self w ∧ logged w' = logged w ∧ persisted w' = persisted w
        ∧ calls w' = (calls w ++ [Requested (state_query (self w))])%list.
Proof.
  intros Hq Hne. rewrite (current_state_rethrows w e r' Hq Hne).
  eexists. split; [reflexivity|]. by cbn.
Qed.

(** X3: outside the debounce case the polled state is written to the cache
    and returned: a cached starting or delayed_shutdown gives way to any
    polled state but running. *)
Theorem current_state_adopts_poll (w w1 : World R) (s : State) :
  instance_state_for (name (self w)) (state_url (self w)) w = (Returned s, w1) →
  ¬ ((state (self w) = delayed_shutdown ∨ state (self w) = starting) ∧ s = running) →
  current_state w = (Returned s, with_self (set_state s) w1).
Proof.
  intros Hi Hn. pose proof (instance_state_for_inv _ _ _ _ _ Hi) as (Hs & _).
  unfold current_state, try_catch. unfold_M. rewrite Hi, Hs.
  destruct (bool_decide (state (self w) = delayed_shutdown ∨ state (self w) = starting)
            && bool_decide (s = running)) eqn:E; [|done].
  apply andb_prop in E as [E1 E2].
  apply bool_decide_eq_true in E1, E2. tauto.
Qed.

End state_requests.

Lemma request_state_failures_witness :
  request_state "stop" (faulty_world (Some LXDNotFoundException))
  = (Returned (), snd (request_state "stop" (faulty_world (Some LXDNotFoundException))))
  ∧ fst (request_state "stop" (faulty_world (Some (runtime_error "Timeout"))))
    = Thrown (runtime_error "Timeout")
  ∧ fst (request_state "stop" (world_of (primary running) (MkStore true ∅) []))
    = Thrown LXDNotFoundException.
Proof.
  split; [|split].
  - pose proof (request_state_failures "stop" (faulty_world (Some LXDNotFoundException)))
      as [_ Hwait].
    rewrite (Hwait acknowledged
               (MkFaulty (MkStore true
                  (<[ state_url (primary running) := JObject {[ "action" := JString "stop" ]} ]>
                     {[ state_url (primary running) := status_reply "Running" 103 ]}))
                  (Some LXDNotFoundException))
               LXDNotFoundException
               (MkFaulty (MkStore true
                  (<[ state_url (primary running) := JObject {[ "action" := JString "stop" ]} ]>
                     {[ state_url (primary running) := status_reply "Running" 103 ]}))
                  (Some LXDNotFoundException)));
      [reflexivity | vm_compute; reflexivity | vm_compute; reflexivity].
  - pose proof (request_state_failures "stop" (faulty_world (Some (runtime_error "Timeout"))))
      as [_ Hwait].
    rewrite (Hwait acknowledged
               (MkFaulty (MkStore true
                  (<[ state_url (primary running) := JObject {[ "action" := JString "stop" ]} ]>
                     {[ state_url (primary running) := status_reply "Running" 103 ]}))
                  (Some (runtime_error "Timeout")))
               (runtime_error "Timeout")
               (MkFaulty (MkStore true
                  (<[ state_url (primary running) := JObject {[ "action" := JString "stop" ]} ]>
                     {[ state_url (primary running) := status_reply "Running" 103 ]}))
                  (Some (runtime_error "Timeout"))));
      [reflexivity | vm_compute; reflexivity | vm_compute; reflexivity].
  - pose proof (request_state_failures "stop"
                  (world_of (primary running) (MkStore true ∅) [])) as [Hput _].
    rewrite (Hput LXDNotFoundException (MkStore true ∅)); [reflexivity|].
    vm_compute. reflexivity.
Defined.

Lemma current_state_propagates_witness :
  ∃ w', current_state (world_of (primary running) (MkStore true ∅) [])
        = (Thrown LXDNotFoundException, w')
        ∧ self w' = primary running ∧ logged w' = [] ∧ persisted w' = []
        ∧ calls w' = [Requested (state_query (primary running))].
Proof.
  apply (current_state_propagates (world_of (primary running) (MkStore true ∅) [])
           LXDNotFoundException (MkStore true ∅)).
  - vm_compute. reflexivity.
  - discriminate.
Defined.

(** The cache says starting and the daemon says stopped: the cache gives way. *)
Lemma current_state_adopts_poll_witness :
  fst (current_state (world_of (primary starting)
                        (lxd_with_status (primary starting) "Stopped" 102) []))
  = Returned stopped.
Proof.
  rewrite (current_state_adopts_poll
             (world_of (primary starting)
                (lxd_with_status (primary starting) "Stopped" 102) [])
             (snd (instance_state_for "primary" (state_url (primary starting))
                     (world_of (primary starting)
                        (lxd_with_status (primary starting) "Stopped" 102) [])))
             stopped).
  - reflexivity.
  - vm_compute. reflexivity.
  - intros [_ [=]].
Defined.

(** ** [stop] and [start] *)

Section stop_start.
Context {R : Type} `{!Daemon R}.

Lemma set_state_set_state (s s' : State) (vm : LXDVirtualMachine) :
  set_state s (set_state s' vm) = set_state s vm.
Proof. reflexivity. Qed.

(** X4: on an instance whose re-derived state is none of stopped, suspended
    and starting, with the stop request accepted, [stop] returns without
    waiting on the condition variable: the cached state is stopped, the port
    is cleared, the stop request follows the state query in the trace, and
    the monitor is told of the stopped state exactly when
    [update_shutdown_status] is set. *)
Theorem stop_live_instance (w w1 w2 : World R) (s : State) :
  current_state w = (Returned s, w1) →
  s ≠ stopped → s ≠ suspended → s ≠ starting →
  request_state "stop" w1 = (Returned (), w2) →
  ∃ w' rest,
    stop w = (Returned (), w')
    ∧ self w' = set_port None (set_state stopped (self w))
    ∧ wakeups w' = wakeups w
    ∧ calls w' = (calls w ++ Requested (state_query (self w))
                    :: Requested (state_request (self w) "stop") :: rest)%list
    ∧ persisted w'
      = if update_shutdown_status (self w)
        then (persisted w ++ [(vm_name (self w), stopped)])%list
        else persisted w.
Proof.
  intros Hc H1 H2 H3 Hr.
  pose proof (current_state_inv _ _ _ Hc) as (Hcalls & Hp & Hw & Hself & _).
  pose proof (request_state_inv _ _ _ _ Hr) as (Hs2 & Hp2 & Hw2 & _ & _).
  destruct (request_state_calls "stop" w1) as [rest Hrest]. rewrite Hr in Hrest.
  cbn [snd] in Hrest.
  assert (Hurl : state_request (self w1) "stop" = state_request (self w) "stop").
  { rewrite Hself. by destruct (self w). }
  unfold stop. unfold_M. rewrite Hc.
  rewrite (bool_decide_false (s = stopped)), (bool_decide_false (s = suspended)),
    (bool_decide_false (s = starting)) by done.
  rewrite Hr. cbn [with_self self].
  assert (Hflag : update_shutdown_status (set_port None (set_state stopped (self w2)))
                  = update_shutdown_status (self w)).
  { rewrite Hs2, Hself. by destruct (self w). }
  assert (Hobj : set_port None (set_state stopped (self w2))
                 = set_port None (set_state stopped (self w))).
  { rewrite Hs2, Hself. by destruct (self w). }
  rewrite Hflag.
  destruct (update_shutdown_status (self w)) eqn:Hu.
  - unfold update_state. unfold_M. cbn.
    eexists _, rest. split; [reflexivity|]. cbn.
    rewrite Hobj, Hw2, Hw, Hp2, Hp, Hrest, Hcalls, Hurl, <- app_assoc.
    repeat split; try done. rewrite Hs2, Hself. by destruct (self w).
  - eexists _, rest. split; [reflexivity|]. cbn.
    rewrite Hobj, Hw2, Hw, Hp2, Hp, Hrest, Hcalls, Hurl, <- app_assoc. done.
Qed.

(** X5: when the stop request fails, [stop] fails with the same exception
    before it touches the object: the cached state is still the re-derived
    one, the port is kept, and the monitor is told nothing. *)
Theorem stop_request_fails (w w1 w2 : World R) (s : State) (e : exception) :
  current_state w = (Returned s, w1) →
  s ≠ stopped → s ≠ suspended →
  request_state "stop" w1 = (Thrown e, w2) →
  stop w = (Thrown e, w2)
  ∧ state (self w2) = s
  ∧ port (self w2) = port (self w)
  ∧ persisted w2 = persisted w.
Proof.
  intros Hc H1 H2 Hr.
  pose proof (current_state_inv _ _ _ Hc) as (_ & Hp & _ & Hself & Ho).
  pose proof (request_state_inv _ _ _ _ Hr) as (Hs2 & Hp2 & _ & _ & _).
  destruct Ho as [(s' & [= <-] & Hst)|[? [=]]].
  unfold stop. unfold_M. rewrite Hc.
  rewrite (bool_decide_false (s = stopped)), (bool_decide_false (s = suspended)) by done.
  rewrite Hr. repeat split; try congruence.
  rewrite Hs2, Hself. by destruct (self w).
Qed.

(** The wait changes nothing but the flag it waits for and the wake-ups it
    uses up, and it returns or stays blocked. *)
Lemma condition_wait_inv (w : World R) o w' :
  condition_wait shutdown_while_starting w = (o, w') →
  persisted w' = persisted w ∧ calls w' = calls w ∧ logged w' = logged w
  ∧ remote w' = remote w
  ∧ self w' = set_shutdown_while_starting (shutdown_while_starting (self w')) (self w)
  ∧ (o = Returned () ∨ o = Blocked).
Proof.
  unfold condition_wait.
  destruct (wait_until_shutdown_while_starting (wakeups w) (self w))
    as (b & vm' & ws' & -> & Hvm & _).
  destruct b; intros [= <- <-]; cbn; rewrite Hvm at 1; cbn; auto 10.
Qed.

(** What [stop] tells the monitor. *)
Lemma stop_persisted (w : World R) :
  persisted (snd (stop w)) = persisted w
  ∨ (update_shutdown_status (self w) = true
     ∧ persisted (snd (stop w)) = (persisted w ++ [(vm_name (self w), stopped)])%list).
Proof.
  unfold stop. unfold_M.
  destruct (current_state w) as [o1 w1] eqn:Hc.
  pose proof (current_state_inv _ _ _ Hc) as (_ & Hp & _ & Hself & Ho).
  destruct Ho as [(s & -> & _)|[e ->]]; [|by left].
  destruct (bool_decide (s = stopped)); [by left|].
  destruct (bool_decide (s = suspended)); [by left|].
  destruct (request_state "stop" w1) as [o2 w2] eqn:Hr.
  pose proof (request_state_inv _ _ _ _ Hr) as (Hs2 & Hp2 & _ & _ & Ho2).
  destruct Ho2 as [-> | [e ->]]; [|left; cbn; congruence].
  assert (Hlast : ∀ w3 : World R,
            persisted w3 = persisted w →
            self w3 = set_shutdown_while_starting (shutdown_while_starting (self w3))
                        (set_state stopped (self w2)) →
            persisted (snd ((if update_shutdown_status (self (with_self (set_port None) w3))
                             then update_state else λ w4, (Returned (), w4))
                              (with_self (set_port None) w3))) = persisted w
            ∨ (update_shutdown_status (self w) = true
               ∧ persisted (snd ((if update_shutdown_status
                                       (self (with_self (set_port None) w3))
                                  then update_state else λ w4, (Returned (), w4))
                                   (with_self (set_port None) w3)))
                 = (persisted w ++ [(vm_name (self w), stopped)])%list)).
  { intros w3 Hp3 Hs3.
    assert (vm_name (self w3) = vm_name (self w)
            ∧ update_shutdown_status (self w3) = update_shutdown_status (self w)
            ∧ state (self w3) = stopped) as (Hn & Hf & Hst).
    { rewrite Hs3, Hs2, Hself. by destruct (self w). }
    cbn [with_self self update_shutdown_status set_port]. rewrite Hf.
    destruct (update_shutdown_status (self w)); [right|left].
    - split; [done|]. unfold update_state. unfold_M. cbn. by rewrite Hp3, Hn, Hst.
    - cbn. done. }
  destruct (bool_decide (s = starting)).
  - destruct (condition_wait shutdown_while_starting (with_self (set_state stopped) w2))
      as [o3 w3] eqn:Hwait.
    apply condition_wait_inv in Hwait as (Hp3 & _ & _ & _ & Hs3 & Ho3).
    cbn in Hp3, Hs3.
    destruct Ho3 as [-> | ->]; [|left; cbn; congruence].
    apply Hlast; [congruence|done].
  - apply Hlast; cbn; [congruence|]. by destruct (self w2).
Qed.

(** X6: whatever happens in [stop], the monitor is told at most one thing,
    that the instance is stopped; it is told nothing when
    [update_shutdown_status] is off, and nothing when [stop] throws. *)
Theorem stop_persists_at_most_stopped (w : World R) :
  (persisted (snd (stop w)) = persisted w
   ∨ persisted (snd (stop w)) = (persisted w ++ [(vm_name (self w), stopped)])%list)
  ∧ (update_shutdown_status (self w) = false → persisted (snd (stop w)) = persisted w)
  ∧ (∀ e, fst (stop w) = Thrown e → persisted (snd (stop w)) = persisted w).
Proof.
  split; [|split].
  - destruct (stop_persisted w) as [H|[_ H]]; auto.
  - intros Hoff. destruct (stop_persisted w) as [H|[Hon _]]; [done|congruence].
  - intros e. unfold stop. unfold_M.
    destruct (current_state w) as [o1 w1] eqn:Hc.
    pose proof (current_state_inv _ _ _ Hc) as (_ & Hp & _ & _ & Ho).
    destruct Ho as [(s & -> & _)|[e1 ->]]; [|done].
    destruct (bool_decide (s = stopped)); [done|].
    destruct (bool_decide (s = suspended)); [done|].
    destruct (request_state "stop" w1) as [o2 w2] eqn:Hr.
    pose proof (request_state_inv _ _ _ _ Hr) as (_ & Hp2 & _ & _ & Ho2).
    destruct Ho2 as [-> | [e2 ->]]; [|cbn; congruence].
    destruct (bool_decide (s = starting)).
    + destruct (condition_wait shutdown_while_starting (with_self (set_state stopped) w2))
        as [o3 w3] eqn:Hwait.
      apply condition_wait_inv in Hwait as (_ & _ & _ & _ & _ & Ho3).
      destruct Ho3 as [-> | ->]; [|done].
      cbn [with_self self]. destruct (update_shutdown_status _); done.
    + cbn [with_self self]. destruct (update_shutdown_status _); done.
Qed.

(** The action [start] asks for. *)
Lemma start_action_run (w : World R) :
  start w
  = (if bool_decide (state (self w) = suspended)
     then (request_state "unfreeze";; assign (set_state starting);; update_state)
            (with_log (LogLine info (vm_name (self w)) "Resuming from a suspended state") w)
     else (request_state "start";; assign (set_state starting);; update_state) w).
Proof.
  unfold start. unfold_M. by destruct (bool_decide (state (self w) = suspended)).
Qed.

(** What [start] does, by the way its request ends. *)
Lemma start_outcome (w : World R) :
  let action := if bool_decide (state (self w) = suspended)
                then "unfreeze" else "start" in
  (∃ rest, calls (snd (start w))
           = (calls w ++ Requested (state_request (self w) action) :: rest)%list)
  ∧ ((∃ e, fst (start w) = Thrown e
           ∧ self (snd (start w)) = self w
           ∧ persisted (snd (start w)) = persisted w)
     ∨ (fst (start w) = Returned ()
        ∧ self (snd (start w)) = set_state starting (self w)
        ∧ persisted (snd (start w))
          = (persisted w ++ [(vm_name (self w), starting)])%list)).
Proof.
  intros action. rewrite start_action_run. subst action.
  destruct (bool_decide (state (self w) = suspended)).
  - set (w0 := with_log _ w).
    destruct (request_state_calls "unfreeze" w0) as [rest Hrest].
    unfold_M. destruct (request_state "unfreeze" w0) as [o w1] eqn:Hr.
    pose proof (request_state_inv _ _ _ _ Hr) as (Hs & Hp & _ & _ & Ho).
    cbn [snd] in Hrest.
    destruct Ho as [-> | [e ->]]; unfold update_state; unfold_M; cbn.
    + split; [by exists rest|]. right. rewrite Hs, Hp. done.
    + split; [by exists rest|]. left. exists e. by rewrite Hs, Hp.
  - destruct (request_state_calls "start" w) as [rest Hrest].
    unfold_M. destruct (request_state "start" w) as [o w1] eqn:Hr.
    pose proof (request_state_inv _ _ _ _ Hr) as (Hs & Hp & _ & _ & Ho).
    cbn [snd] in Hrest.
    destruct Ho as [-> | [e ->]]; unfold update_state; unfold_M; cbn.
    + split; [by exists rest|]. right. rewrite Hs, Hp. done.
    + split; [by exists rest|]. left. exists e. by rewrite Hs, Hp.
Qed.

(** X7: [start] asks the daemon to unfreeze a suspended instance (after a
    log record) and to start any other, and its end is decided by how that
    request ends.  The request leaves the object and the monitor alone.
    When it returns, [start] returns with the cached state set to starting
    and (name, starting) handed to the monitor, and nothing else changed;
    when it throws, [start] throws the same exception in the world the
    request left, so with the cached state as before and the monitor told
    nothing. *)
Theorem start_requests_and_marks (w w1 : World R) (o : outcome unit) :
  let resuming :=
    with_log (LogLine info (vm_name (self w)) "Resuming from a suspended state") w in
  let started :=
    with_persisted (vm_name (self w)) starting (with_self (set_state starting) w1) in
  (state (self w) = suspended ∧ request_state "unfreeze" resuming = (o, w1)
   ∨ state (self w) ≠ suspended ∧ request_state "start" w = (o, w1)) →
  self w1 = self w
  ∧ persisted w1 = persisted w
  ∧ (∃ rest,
       calls w1
       = (calls w ++ Requested (state_request (self w)
                       (if bool_decide (state (self w) = suspended)
                        then "unfreeze" else "start")) :: rest)%list)
  ∧ (o = Returned () → start w = (Returned (), started))
  ∧ (∀ e, o = Thrown e → start w = (Thrown e, w1)).
Proof.
  intros resuming started Hreq. rewrite start_action_run.
  destruct Hreq as [[Hs Hr]|[Hs Hr]].
  - rewrite bool_decide_true by done. fold resuming.
    pose proof (request_state_inv _ _ _ _ Hr) as (Hself & Hp & _ & _ & _).
    destruct (request_state_calls "unfreeze" resuming) as [rest Hrest].
    rewrite Hr in Hrest. cbn [snd] in Hrest.
    split; [exact Hself|]. split; [exact Hp|]. split; [by exists rest|].
    unfold_M. rewrite Hr. split.
    + intros ->. unfold update_state. unfold_M. cbn. subst started.
      rewrite Hself. reflexivity.
    + by intros e ->.
  - rewrite bool_decide_false by done.
    pose proof (request_state_inv _ _ _ _ Hr) as (Hself & Hp & _ & _ & _).
    destruct (request_state_calls "start" w) as [rest Hrest].
    rewrite Hr in Hrest. cbn [snd] in Hrest.
    split; [exact Hself|]. split; [exact Hp|]. split; [by exists rest|].
    unfold_M. rewrite Hr. split.
    + intros ->. unfold update_state. unfold_M. cbn. subst started.
      rewrite Hself. reflexivity.
    + by intros e ->.
Qed.

(** X8: after a [start] that returned, a poll that maps to running does not
    move the cache: [current_state] still answers starting. *)
Theorem start_then_running_poll (w w1 w2 : World R) :
  start w = (Returned (), w1) →
  instance_state_for (name (self w1)) (state_url (self w1)) w1 = (Returned running, w2) →
  current_state w1 = (Returned starting, w2)
  ∧ state (self w2) = starting.
Proof.
  intros Hs Hi.
  assert (Hst : state (self w1) = starting).
  { destruct (start_outcome w) as [_ [(e & He & _)|(_ & Hself & _)]];
      rewrite Hs in *; cbn in *; [done|]. by rewrite Hself. }
  pose proof (instance_state_for_inv _ _ _ _ _ Hi) as (Hself & _).
  split; [|by rewrite Hself].
  unfold current_state, try_catch. unfold_M. rewrite Hi, Hself, Hst.
  rewrite bool_decide_true by tauto. by rewrite bool_decide_true.
Qed.

End stop_start.

Lemma stop_live_instance_witness :
  ∃ w', stop (machine_world running 103) = (Returned (), w')
        ∧ self w' = set_port None (set_state stopped (primary running))
        ∧ persisted w' = [("primary", stopped)]
        ∧ status_code (remote w') = 102.
Proof.
  destruct (stop_live_instance (machine_world running 103)
              (snd (current_state (machine_world running 103)))
              (snd (request_state "stop" (snd (current_state (machine_world running 103)))))
              running)
    as (w' & rest & Hstop & Hself & _ & _ & Hp); try discriminate.
  - vm_compute. reflexivity.
  - vm_compute. reflexivity.
  - exists w'. split; [exact Hstop|]. split; [exact Hself|]. split; [exact Hp|].
    assert (E : w' = snd (stop (machine_world running 103))) by (by rewrite Hstop).
    rewrite E. vm_compute. reflexivity.
Defined.

Lemma stop_request_fails_witness :
  stop (faulty_world (Some (runtime_error "Timeout")))
  = (Thrown (runtime_error "Timeout"),
     snd (request_state "stop"
            (snd (current_state (faulty_world (Some (runtime_error "Timeout")))))))
  ∧ state (self (snd (request_state "stop"
            (snd (current_state (faulty_world (Some (runtime_error "Timeout")))))))) = running
  ∧ port (self (snd (request_state "stop"
            (snd (current_state (faulty_world (Some (runtime_error "Timeout"))))))))
    = port (self (faulty_world (Some (runtime_error "Timeout"))))
  ∧ persisted (snd (request_state "stop"
            (snd (current_state (faulty_world (Some (runtime_error "Timeout")))))))
    = persisted (faulty_world (Some (runtime_error "Timeout"))).
Proof.
  apply (stop_request_fails (faulty_world (Some (runtime_error "Timeout")))
           (snd (current_state (faulty_world (Some (runtime_error "Timeout")))))
           _ running (runtime_error "Timeout")); try discriminate.
  - vm_compute. reflexivity.
  - vm_compute. reflexivity.
Defined.

(** A suspended instance is resumed; a start whose wait times out fails
    and leaves the cache alone. *)
Lemma start_requests_and_marks_witness :
  start (machine_world suspended 110)
  = (Returned (),
     with_persisted "primary" starting
       (with_self (set_state starting)
          (snd (request_state "unfreeze"
                  (with_log (LogLine info "primary" "Resuming from a suspended state")
                     (machine_world suspended 110))))))
  ∧ start (faulty_world (Some (runtime_error "Timeout")))
    = (Thrown (runtime_error "Timeout"),
       snd (request_state "start" (faulty_world (Some (runtime_error "Timeout")))))
  ∧ state (self (snd (start (faulty_world (Some (runtime_error "Timeout")))))) = running.
Proof.
  split; [|split].
  - destruct (start_requests_and_marks (machine_world suspended 110)
                (snd (request_state "unfreeze"
                        (with_log (LogLine info "primary" "Resuming from a suspended state")
                           (machine_world suspended 110))))
                (Returned ()))
      as (_ & _ & _ & Hreturned & _).
    + left. split; [reflexivity | vm_compute; reflexivity].
    + by apply Hreturned.
  - destruct (start_requests_and_marks (faulty_world (Some (runtime_error "Timeout")))
                (snd (request_state "start" (faulty_world (Some (runtime_error "Timeout")))))
                (Thrown (runtime_error "Timeout")))
      as (_ & _ & _ & _ & Hthrown).
    + right. split; [discriminate | vm_compute; reflexivity].
    + by apply Hthrown.
  - destruct (start_requests_and_marks (faulty_world (Some (runtime_error "Timeout")))
                (snd (request_state "start" (faulty_world (Some (runtime_error "Timeout")))))
                (Thrown (runtime_error "Timeout")))
      as (Hself & _ & _ & _ & Hthrown).
    + right. split; [discriminate | vm_compute; reflexivity].
    + rewrite (Hthrown _ eq_refl). cbn [snd]. by rewrite Hself.
Defined.

(** The instance is started and the daemon already reports it running. *)
Lemma start_then_running_poll_witness :
  current_state (snd (start (machine_world stopped 102)))
  = (Returned starting,
     snd (instance_state_for "primary" (state_url (primary stopped))
            (snd (start (machine_world stopped 102)))))
  ∧ state (self (snd (instance_state_for "primary" (state_url (primary stopped))
            (snd (start (machine_world stopped 102)))))) = starting.
Proof.
  apply (start_then_running_poll (machine_world stopped 102)
           (snd (start (machine_world stopped 102)))).
  - vm_compute. reflexivity.
  - vm_compute. reflexivity.
Defined.

(** ** [is_vm_running] *)

Section is_vm_running_facts.
Context {R : Type} `{!Daemon R}.

(** X9: [is_vm_running] answers true after one poll that is not stopped;
    after a stopped poll it polls once more, and a second poll that is not
    stopped makes the cached state starting, whatever that poll said; it
    answers false only when both polls said stopped. *)
Theorem is_vm_running_polls (w w1 : World R) (s : State) :
  current_state w = (Returned s, w1) →
  (s ≠ stopped → is_vm_running w = (Returned true, w1))
  ∧ (s = stopped →
     ∀ s2 w2, current_state w1 = (Returned s2, w2) →
       (s2 ≠ stopped →
          is_vm_running w = (Returned true, with_self (set_state starting) w2))
       ∧ (s2 = stopped →
          is_vm_running w = (Returned false, w2) ∧ state (self w2) = stopped)).
Proof.
  intros Hc. split.
  - intros Hs. unfold is_vm_running. unfold_M. rewrite Hc.
    by rewrite bool_decide_true.
  - intros -> s2 w2 Hc2.
    pose proof (current_state_inv _ _ _ Hc2) as (_ & _ & _ & _ & Ho).
    destruct Ho as [(s' & [= <-] & Hst)|[? [=]]].
    unfold is_vm_running. unfold_M. rewrite Hc.
    rewrite (bool_decide_false (stopped ≠ stopped)) by (intros E; by apply E).
    rewrite Hc2. split.
    + intros Hs. by rewrite bool_decide_true.
    + intros ->. rewrite (bool_decide_false (stopped ≠ stopped)) by (intros E; by apply E).
      done.
Qed.

(** X10: a daemon that cannot be reached counts as a running instance:
    when the state query fails on the local socket, [is_vm_running] answers
    true after that one query, with the cached state unknown. *)
Theorem is_vm_running_unreachable (w : World R) (what : string) (r' : R) :
  lxd_request_reply (state_query (self w)) (remote w)
  = (inl (LocalSocketConnectionException what), r') →
  ∃ w', is_vm_running w = (Returned true, w')
        ∧ state (self w') = unknown
        ∧ calls w' = (calls w ++ [Requested (state_query (self w))])%list.
Proof.
  intros Hq. unfold is_vm_running, current_state, try_catch, instance_state_for,
    state_query in *. unfold_M.
  rewrite (lxd_request_thrown _ _ _ _ _ _ _ Hq). cbn.
  eexists. split; [reflexivity|]. by cbn.
Qed.

End is_vm_running_facts.

(** The instance has stopped for good; it was only rebooting. *)
Lemma is_vm_running_polls_witness :
  fst (is_vm_running (machine_world running 102)) = Returned false
  ∧ fst (is_vm_running (machine_world stopped 103)) = Returned true.
Proof.
  split.
  - destruct (is_vm_running_polls (machine_world running 102)
                (snd (current_state (machine_world running 102))) stopped)
      as [_ Hstopped]; [vm_compute; reflexivity|].
    destruct (Hstopped eq_refl stopped
                (snd (current_state (snd (current_state (machine_world running 102))))))
      as [_ Hfalse]; [vm_compute; reflexivity|].
    destruct (Hfalse eq_refl) as [-> _]. reflexivity.
  - destruct (is_vm_running_polls (machine_world stopped 103)
                (snd (current_state (machine_world stopped 103))) running)
      as [Hrunning _]; [vm_compute; reflexivity|].
    rewrite Hrunning; [reflexivity | discriminate].
Defined.

Lemma is_vm_running_unreachable_witness :
  ∃ w', is_vm_running (world_of (primary running) unreachable []) = (Returned true, w')
        ∧ state (self w') = unknown
        ∧ calls w' = [Requested (state_query (primary running))].
Proof.
  apply (is_vm_running_unreachable (world_of (primary running) unreachable [])
           "Cannot connect to the LXD socket" unreachable).
  vm_compute. reflexivity.
Defined.

(** ** The constructor *)

Section constructor_facts.
Context {R : Type} `{!Daemon R}.
Context {Node : Type} (IsNull : Node → bool) (emit_cloud_config : Node → string).


End constructor_facts.


(** ** The creation request *)

Section creation_facts.
Context {Node : Type} (IsNull : Node → bool) (emit_cloud_config : Node → string).







(** X13: the configuration of a new instance always carries the core
    count and the memory size in decimal and has secure boot off; each of
    the four cloud-init keys is there exactly when its document is not
    null, with the emitted document as its value. *)
Theorem generate_base_vm_config_entries (desc : VirtualMachineDescription.t Node) :
  let config := generate_base_vm_config IsNull emit_cloud_config desc in
  let document (node : Node) :=
    if IsNull node then None else Some (JString (emit_cloud_config node)) in
  config !! "limits.cpu"
  = Some (JString (QString_number (VirtualMachineDescription.num_cores desc)))
  ∧ config !! "limits.memory"
    = Some (JString (QString_number
              (in_bytes (VirtualMachineDescription.mem_size desc))))
  ∧ config !! "security.secureboot" = Some (JString "false")
  ∧ config !! "user.meta-data"
    = document (VirtualMachineDescription.meta_data_config desc)
  ∧ config !! "user.vendor-data"
    = document (VirtualMachineDescription.vendor_data_config desc)
  ∧ config !! "user.user-data"
    = document (VirtualMachineDescription.user_data_config desc)
  ∧ config !! "user.network-config"
    = document (VirtualMachineDescription.network_data_config desc)
  ∧ ∀ k, is_Some (config !! k) →
         k ∈ ["limits.cpu"; "limits.memory"; "security.secureboot"; "user.meta-data";
              "user.vendor-data"; "user.user-data"; "user.network-config"].
Proof.
  intros config document. subst config document. unfold generate_base_vm_config.
  destruct (IsNull (VirtualMachineDescription.meta_data_config desc)),
    (IsNull (VirtualMachineDescription.vendor_data_config desc)),
    (IsNull (VirtualMachineDescription.user_data_config desc)),
    (IsNull (VirtualMachineDescription.network_data_config desc));
    cbn [negb]; (repeat split; [reflexivity..|]);
    intros k [v Hk]; split_mem;
    repeat (apply lookup_insert_Some in Hk as [[<- _]|[_ Hk]]; [tauto|]);
    apply lookup_singleton_Some in Hk as [<- _]; tauto.
Qed.

End creation_facts.


Lemma generate_base_vm_config_entries_witness :
  generate_base_vm_config example_IsNull example_emit example_desc !! "user.user-data"
  = Some (JString "#cloud-config")
  ∧ generate_base_vm_config example_IsNull example_emit example_desc !! "user.meta-data"
    = None.
Proof.
  destruct (generate_base_vm_config_entries example_IsNull example_emit example_desc)
    as (_ & _ & _ & Hmeta & _ & Huser & _).
  split; [exact Huser | exact Hmeta].
Defined.

(** ** The destructor *)

Section destructor_facts.
Context {R : Type} `{!Daemon R}.

(** X14: the destructor that finds the instance in a state other than
    running tells the monitor that state and asks the daemon for nothing
    more; one that finds it running while the snap is being refreshed does
    nothing after the state query; one that finds no instance logs that and
    returns. *)
Theorem destructor_without_stop (describe : exception → string) (snap : SnapRefresh)
    (w : World R) :
  let w0 := with_self (set_update_shutdown_status false) w in
  let delete := LXDVirtualMachine_delete describe snap in
  (∀ s w1, current_state w0 = (Returned s, w1) → s ≠ running →
     delete w = (Returned (), with_persisted (vm_name (self w)) s w1))
  ∧ (∀ w1, current_state w0 = (Returned running, w1) →
       snap = snap_refresh_exists true →
       delete w = (Returned (), w1))
  ∧ (∀ r1, lxd_request_reply (state_query (self w)) (remote w)
           = (inl LXDNotFoundException, r1) →
       delete w
       = (Returned (),
          with_log (LogLine debug (vm_name (self w)) "LXD object not found")
            (with_remote r1 (Requested (state_query (self w))) w0))).
Proof.
  intros w0 delete. subst delete.
  unfold LXDVirtualMachine_delete, LXDVirtualMachine_delete_body, top_catch_all, try_catch.
  unfold_M. change (with_self (set_update_shutdown_status false) w) with w0.
  split; [|split].
  - intros s w1 Hc Hs.
    pose proof (current_state_inv _ _ _ Hc) as (_ & _ & _ & Hself & Ho).
    destruct Ho as [(s' & [= <-] & Hst)|[? [=]]].
    rewrite Hc, Hst. rewrite bool_decide_false by done.
    unfold update_state. unfold_M. cbn. rewrite Hst.
    assert (vm_name (self w1) = vm_name (self w)) as ->; [|done].
    rewrite Hself. subst w0. reflexivity.
  - intros w1 Hc ->.
    pose proof (current_state_inv _ _ _ Hc) as (_ & _ & _ & _ & Ho).
    destruct Ho as [(s' & [= <-] & Hst)|[? [=]]].
    rewrite Hc, Hst. by rewrite bool_decide_true.
  - intros r1 Hq.
    assert (Hq0 : lxd_request_reply (state_query (self w0)) (remote w0)
                  = (inl LXDNotFoundException, r1)).
    { subst w0. exact Hq. }
    rewrite (current_state_rethrows w0 LXDNotFoundException r1 Hq0) by discriminate.
    subst w0. reflexivity.
Qed.

(** X15: the destructor that finds the instance running, with no snap
    refresh under way, is [stop] with the monitor kept out: it ends as
    [stop] ends unless [stop] throws, it never throws, and the monitor is
    told nothing. *)
Theorem destructor_stops_running (describe : exception → string) (snap : SnapRefresh)
    (w w1 : World R) :
  let delete := LXDVirtualMachine_delete describe snap in
  current_state (with_self (set_update_shutdown_status false) w) = (Returned running, w1) →
  snap ≠ snap_refresh_exists true →
  ((∀ e, fst (stop w1) ≠ Thrown e) → delete w = stop w1)
  ∧ (∀ e, fst (delete w) ≠ Thrown e)
  ∧ persisted (snd (delete w)) = persisted w.
Proof.
  intros delete Hc Hsnap. subst delete.
  pose proof (current_state_inv _ _ _ Hc) as (_ & Hp & _ & Hself & Ho).
  destruct Ho as [(s' & [= <-] & Hst)|[? [=]]].
  assert (Hoff : update_shutdown_status (self w1) = false).
  { rewrite Hself. reflexivity. }
  assert (Hstop : persisted (snd (stop w1)) = persisted w).
  { destruct (stop_persisted w1) as [E|[E _]]; [by rewrite E, Hp | congruence]. }
  unfold LXDVirtualMachine_delete, LXDVirtualMachine_delete_body, top_catch_all, try_catch.
  unfold_M. rewrite Hc, Hst. rewrite bool_decide_true by done.
  assert (Hsame : match snap with
                  | SnapEnvironmentException => stop
                  | snap_refresh_exists true => λ w2 : World R, (Returned (), w2)
                  | snap_refresh_exists false => stop
                  end = stop).
  { destruct snap as [|[|]]; done. }
  rewrite Hsame. clear Hsame.
  destruct (stop w1) as [o w2]. cbn [fst snd] in *.
  destruct o as [[]|e| |]; cbn.
  - repeat split; done.
  - split; [intros Hn; by destruct (Hn e)|].
    destruct e; cbn; repeat split; done.
  - repeat split; done.
  - repeat split; done.
Qed.

End destructor_facts.

(** The destructor's record of an exception, for the examples. *)
Lemma destructor_without_stop_witness :
  LXDVirtualMachine_delete (λ _, "failure") SnapEnvironmentException
    (machine_world running 102)
  = (Returned (),
     with_persisted "primary" stopped
       (snd (current_state
               (with_self (set_update_shutdown_status false) (machine_world running 102)))))
  ∧ fst (LXDVirtualMachine_delete (λ _, "failure") (snap_refresh_exists true)
           (machine_world running 103))
    = Returned ()
  ∧ fst (LXDVirtualMachine_delete (λ _, "failure") SnapEnvironmentException
           (world_of (primary running) (MkStore true ∅) []))
    = Returned ().
Proof.
  split; [|split].
  - destruct (destructor_without_stop (λ _, "failure") SnapEnvironmentException
                (machine_world running 102)) as (Hquiet & _ & _).
    apply (Hquiet stopped); [vm_compute; reflexivity | discriminate].
  - destruct (destructor_without_stop (λ _, "failure") (snap_refresh_exists true)
                (machine_world running 103)) as (_ & Hrefresh & _).
    rewrite (Hrefresh (snd (current_state
               (with_self (set_update_shutdown_status false) (machine_world running 103)))));
      [reflexivity | vm_compute; reflexivity | reflexivity].
  - destruct (destructor_without_stop (λ _, "failure") SnapEnvironmentException
                (world_of (primary running) (MkStore true ∅) [])) as (_ & _ & Hgone).
    rewrite (Hgone (MkStore true ∅)); [reflexivity | vm_compute; reflexivity].
Defined.

Lemma destructor_stops_running_witness :
  persisted (snd (LXDVirtualMachine_delete (λ _, "failure") (snap_refresh_exists false)
                    (machine_world running 103))) = []
  ∧ status_code (remote (snd (LXDVirtualMachine_delete (λ _, "failure")
                                (snap_refresh_exists false)
                                (machine_world running 103)))) = 102.
Proof.
  destruct (destructor_stops_running (λ _, "failure") (snap_refresh_exists false)
              (machine_world running 103)
              (snd (current_state
                      (with_self (set_update_shutdown_status false)
                         (machine_world running 103)))))
    as (Hstop & _ & Hquiet).
  - vm_compute. reflexivity.
  - discriminate.
  - split; [exact Hquiet|]. rewrite Hstop; [vm_compute; reflexivity|].
    intros e. vm_compute. discriminate.
Defined.

(** ** [management_ipv4] *)

Section management_ipv4_facts.
Context {R : Type} `{!Daemon R}.
Context {IPAddress : Type} (IPAddress_of : string → option IPAddress)
        (as_string : IPAddress → string).

(** X16: [management_ipv4] remembers what it finds.  With nothing in the
    cache and leases that resolve the instance's MAC address, the call asks
    the daemon once, answers with the address and hands it back as the new
    cache; a call with that cache answers the same without asking the
    daemon, in any world, so two calls in a row make the one request of the
    first. *)
Theorem management_ipv4_memoizes (w : World R) (reply : QJsonObject) (r' : R)
    (ip : IPAddress) :
  let leases_query := Req "GET" (network_leases_url (self w)) None None in
  let asked := with_remote r' (Requested leases_query) w in
  let call := management_ipv4 IPAddress_of as_string in
  lxd_request_reply leases_query (remote w) = (inr reply, r') →
  get_ip_for_leases IPAddress_of (mac_addr (self w)) (toArray (value reply "metadata"))
  = Some ip →
  call None w = (Returned (as_string ip, Some ip), asked)
  ∧ (∀ w2 : World R, call (Some ip) w2 = (Returned (as_string ip, Some ip), w2))
  ∧ (first ← call None; call (snd first)) w = (Returned (as_string ip, Some ip), asked).
Proof.
  intros leases_query asked call Hq Hfound. subst call.
  assert (Hfirst : management_ipv4 IPAddress_of as_string None w
                   = (Returned (as_string ip, Some ip), asked)).
  { unfold management_ipv4, get_ip_for. unfold_M.
    rewrite (lxd_request_returned _ _ _ _ _ _ _ Hq). cbn [self with_remote].
    by rewrite Hfound. }
  split; [exact Hfirst|]. split; [done|].
  unfold mbind, M_bind, bind. by rewrite Hfirst.
Qed.

(** X17: with nothing in the cache, [management_ipv4] answers UNKNOWN when
    the leases hold no address for the instance, logs that, and caches
    nothing, so that the next call asks again; and when the request for the
    leases throws, the exception goes to the caller, the local socket's
    included. *)
Theorem management_ipv4_unresolved (w : World R) :
  let leases_query := Req "GET" (network_leases_url (self w)) None None in
  (∀ reply r',
     lxd_request_reply leases_query (remote w) = (inr reply, r') →
     get_ip_for_leases IPAddress_of (mac_addr (self w)) (toArray (value reply "metadata"))
     = None →
     management_ipv4 IPAddress_of as_string None w
     = (Returned ("UNKNOWN", None),
        with_log (LogLine trace (name (self w)) "IP address not found.")
          (with_remote r' (Requested leases_query) w)))
  ∧ (∀ e r',
       lxd_request_reply leases_query (remote w) = (inl e, r') →
       management_ipv4 IPAddress_of as_string None w
       = (Thrown e, with_remote r' (Requested leases_query) w)).
Proof.
  intros leases_query. subst leases_query. split.
  - intros reply r' Hq Hnone. unfold management_ipv4, get_ip_for. unfold_M.
    rewrite (lxd_request_returned _ _ _ _ _ _ _ Hq). cbn [self with_remote].
    by rewrite Hnone.
  - intros e r' Hq. unfold management_ipv4, get_ip_for. unfold_M.
    by rewrite (lxd_request_thrown _ _ _ _ _ _ _ Hq).
Qed.

End management_ipv4_facts.

(** The second lease of the table resolves; the second call does not ask. *)
Lemma management_ipv4_memoizes_witness :
  management_ipv4 example_IPAddress_of id None leases_world
  = (Returned ("10.0.0.5", Some "10.0.0.5"),
     with_remote (remote leases_world)
       (Requested (Req "GET" (network_leases_url (primary running)) None None))
       leases_world)
  ∧ calls (snd ((first ← management_ipv4 example_IPAddress_of id None;
                 management_ipv4 example_IPAddress_of id (snd first)) leases_world))
    = [Requested (Req "GET" (network_leases_url (primary running)) None None)].
Proof.
  destruct (management_ipv4_memoizes example_IPAddress_of id leases_world
              (<[ "metadata" :=
                    JArray [lease "52:54:00:aa:bb:cc" "10.0.0.";
                            lease "52:54:00:aa:bb:cc" "10.0.0.5"] ]> acknowledged)
              (remote leases_world) "10.0.0.5") as (Hfirst & _ & Htwice).
  - vm_compute. reflexivity.
  - vm_compute. reflexivity.
  - split; [exact Hfirst|]. rewrite Htwice. reflexivity.
Defined.

Lemma management_ipv4_unresolved_witness :
  fst (management_ipv4 example_IPAddress_of id None
         (world_of (primary running)
            (MkStore true {[ network_leases_url (primary running) := JArray [] ]}) []))
  = Returned ("UNKNOWN", None)
  ∧ fst (management_ipv4 example_IPAddress_of id None
           (world_of (primary running) unreachable []))
    = Thrown (LocalSocketConnectionException "Cannot connect to the LXD socket").
Proof.
  split.
  - destruct (management_ipv4_unresolved example_IPAddress_of id
                (world_of (primary running)
                   (MkStore true {[ network_leases_url (primary running) := JArray [] ]}) []))
      as [Hnone _].
    rewrite (Hnone (<[ "metadata" := JArray [] ]> acknowledged)
                   (MkStore true {[ network_leases_url (primary running) := JArray [] ]}));
      [reflexivity | vm_compute; reflexivity | reflexivity].
  - destruct (management_ipv4_unresolved example_IPAddress_of id
                (world_of (primary running) unreachable [])) as [_ Hthrown].
    rewrite (Hthrown (LocalSocketConnectionException "Cannot connect to the LXD socket")
                     unreachable);
      [reflexivity | vm_compute; reflexivity].
Defined.

(** ** More on the mount handler *)

Section mount_handler_more.
Context {R : Type} `{!Daemon R}.
Context (make_uuid : string → string) (lxd_socket_url : string).

Lemma left_length (n : nat) (s : string) :
  String.length (left n s) = Nat.min n (String.length s).
Proof.
  unfold left. revert s. induction n as [|n IH]; intros [|c s]; cbn; auto.
Qed.

(** X18: a device name is d_ followed by the first 25 characters of the
    target's UUID: it never has more than the 27 characters LXD accepts,
    it has exactly 27 when the UUID has 25 or more, and two targets get the
    same device name exactly when their UUIDs agree on the first 25
    characters. *)
Theorem device_name_for_length (target_path : string) :
  String.length (device_name_for make_uuid target_path)
  = (2 + Nat.min 25 (String.length (make_uuid target_path)))%nat
  ∧ (String.length (device_name_for make_uuid target_path) ≤ 27)%nat
  ∧ ∀ other,
      device_name_for make_uuid target_path = device_name_for make_uuid other
      ↔ left 25 (make_uuid target_path) = left 25 (make_uuid other).
Proof.
  unfold device_name_for, length_of_unique_id_without_prefix.
  assert (E : String.length ("d_" +:+ left 25 (make_uuid target_path))
              = (2 + Nat.min 25 (String.length (make_uuid target_path)))%nat).
  { change (S (S (String.length (left 25 (make_uuid target_path))))
            = (2 + Nat.min 25 (String.length (make_uuid target_path)))%nat).
    by rewrite left_length. }
  repeat split; [exact E | rewrite E; lia | | by intros ->].
  intros Heq. by apply (inj (String.app "d_")) in Heq.
Qed.

(** X19: a mount that maps group or user ids is refused before anything is
    asked of the daemon, the instance's state included; without mappings
    the call is the handler's constructor on the mount's source path. *)
Theorem make_native_mount_handler_id_mappings (target : string) (mount : VMMount.t)
    (w : World R) :
  (VMMount.gid_mappings mount ≠ [] ∨ VMMount.uid_mappings mount ≠ [] →
   make_native_mount_handler make_uuid lxd_socket_url target mount w
   = (Thrown (runtime_error "lxd native mount does not accept gid or uid."), w))
  ∧ (VMMount.gid_mappings mount = [] → VMMount.uid_mappings mount = [] →
     make_native_mount_handler make_uuid lxd_socket_url target mount w
     = LXDMountHandler_new make_uuid lxd_socket_url target (VMMount.source_path mount) w).
Proof.
  unfold make_native_mount_handler. split.
  - intros [Hg|Hu].
    + by rewrite (bool_decide_false (VMMount.gid_mappings mount = [])).
    + rewrite (bool_decide_false (VMMount.uid_mappings mount = [])) by done.
      by rewrite orb_true_r.
  - intros Hg Hu. by rewrite !bool_decide_true.
Qed.

(** [lxd_device_remove] first reads the instance; when that read returns,
    it writes the metadata back with the handler's name taken out of the
    device map it has just read. *)
Lemma lxd_device_remove_calls (h : LXDMountHandler) (w : World R) :
  ∃ rest,
    calls (snd (lxd_device_remove lxd_socket_url h w))
    = (calls w ++ Requested (Req "GET" (lxd_instance_endpoint h) None None) :: rest)%list
    ∧ ∀ reply r',
        lxd_request_reply (Req "GET" (lxd_instance_endpoint h) None None) (remote w)
        = (inr reply, r') →
        let metadata := toObject (value reply "metadata") in
        ∃ rest',
          rest = Requested (Req "PUT" (lxd_instance_endpoint h)
                   (Some (<[ "devices" :=
                              JObject (delete (device_name_ h)
                                         (toObject (value metadata "devices"))) ]>
                            metadata))
                   None) :: rest'.
Proof.
  unfold lxd_device_remove. unfold_M. unfold lxd_request at 1.
  destruct (lxd_request_reply _ (remote w)) as [[e|reply] r'] eqn:Hq; cbn -[lxd_request lxd_wait].
  - exists []. split; [done|]. intros ?? [=].
  - match goal with
    | |- context [lxd_request ?m ?u ?d ?t ?w0] =>
        destruct (lxd_request m u d t w0) as [o1 w1] eqn:H1
    end.
    apply lxd_request_inv in H1 as (_ & _ & _ & _ & Hc1 & Ho1).
    destruct Ho1 as [[reply1 ->]|[e ->]].
    + match goal with
      | |- context [lxd_wait ?b ?task ?t ?w0] =>
          destruct (lxd_wait b task t w0) as [o2 w2] eqn:H2
      end.
      apply lxd_wait_inv in H2 as (_ & _ & _ & _ & Hc2 & Ho2).
      eexists (_ :: [_]). split.
      * destruct Ho2 as [[? ->]|[? ->]]; cbn; rewrite Hc2, Hc1; cbn;
          rewrite <- !app_assoc; reflexivity.
      * intros ?? [= <- <-]. eexists. reflexivity.
    + eexists [_]. split.
      * cbn. rewrite Hc1. cbn. rewrite <- !app_assoc. reflexivity.
      * intros ?? [= <- <-]. eexists. reflexivity.
Qed.

(** X20: when the read of the instance throws, [lxd_device_add] and
    [lxd_device_remove] throw the same exception and nothing is written:
    the read is their only call. *)
Theorem device_update_needs_the_read (h : LXDMountHandler) (w : World R)
    (e : exception) (r' : R) :
  lxd_request_reply (Req "GET" (lxd_instance_endpoint h) None None) (remote w)
  = (inl e, r') →
  let after := with_remote r' (Requested (Req "GET" (lxd_instance_endpoint h) None None)) w in
  lxd_device_add lxd_socket_url h w = (Thrown e, after)
  ∧ lxd_device_remove lxd_socket_url h w = (Thrown e, after).
Proof.
  intros Hq after. subst after.
  unfold lxd_device_add, lxd_device_remove. unfold_M.
  by rewrite (lxd_request_thrown _ _ _ _ _ _ _ Hq).
Qed.

(** X21: both updates write back what they read, changed in one place:
    every key of the instance's metadata other than devices goes back as
    it came, and of the devices only the handler's own entry is set, or
    taken out. *)
Theorem device_update_merges (h : LXDMountHandler) (w : World R)
    (reply : QJsonObject) (r' : R) :
  lxd_request_reply (Req "GET" (lxd_instance_endpoint h) None None) (remote w)
  = (inr reply, r') →
  let metadata := toObject (value reply "metadata") in
  let devices := toObject (value metadata "devices") in
  let get := Requested (Req "GET" (lxd_instance_endpoint h) None None) in
  let put body := Requested (Req "PUT" (lxd_instance_endpoint h) (Some body) None) in
  ∃ added removed rest_add rest_remove,
    calls (snd (lxd_device_add lxd_socket_url h w))
    = (calls w ++ get :: put added :: rest_add)%list
    ∧ calls (snd (lxd_device_remove lxd_socket_url h w))
      = (calls w ++ get :: put removed :: rest_remove)%list
    ∧ (∀ k, k ≠ "devices" → added !! k = metadata !! k ∧ removed !! k = metadata !! k)
    ∧ toObject (value added "devices") = <[ device_name_ h := device_of h ]> devices
    ∧ toObject (value removed "devices") = delete (device_name_ h) devices
    ∧ (∀ d, d ≠ device_name_ h →
            toObject (value added "devices") !! d = devices !! d
            ∧ toObject (value removed "devices") !! d = devices !! d).
Proof.
  intros Hq metadata devices get put.
  destruct (lxd_device_add_calls lxd_socket_url h w) as (ra & Ha & Hpa).
  destruct (lxd_device_remove_calls h w) as (rr & Hr & Hpr).
  destruct (Hpa reply r' Hq) as [ra' ->]. destruct (Hpr reply r' Hq) as [rr' ->].
  eexists _, _, ra', rr'. split; [exact Ha|]. split; [exact Hr|].
  fold metadata devices. rewrite !value_insert. cbn [toObject].
  repeat split.
  - by rewrite lookup_insert_ne.
  - by rewrite lookup_insert_ne.
  - by rewrite lookup_insert_ne.
  - by rewrite lookup_delete_ne.
Qed.

End mount_handler_more.

Lemma make_native_mount_handler_id_mappings_witness :
  make_native_mount_handler example_make_uuid example_socket_url "/home/user/proj"
    (VMMount.Make "/host/proj" [(1000, 1000)] []) running_world
  = (Thrown (runtime_error "lxd native mount does not accept gid or uid."), running_world)
  ∧ fst (make_native_mount_handler example_make_uuid example_socket_url "/home/user/proj"
           (VMMount.Make "/host/proj" [] []) stopped_world)
    = Returned example_handler.
Proof.
  split.
  - destruct (make_native_mount_handler_id_mappings example_make_uuid example_socket_url
                "/home/user/proj" (VMMount.Make "/host/proj" [(1000, 1000)] [])
                running_world) as [Hrefused _].
    apply Hrefused. left. discriminate.
  - destruct (make_native_mount_handler_id_mappings example_make_uuid example_socket_url
                "/home/user/proj" (VMMount.Make "/host/proj" [] [])
                stopped_world) as [_ Hplain].
    rewrite Hplain; [vm_compute; reflexivity | reflexivity | reflexivity].
Defined.

Lemma device_update_needs_the_read_witness :
  fst (lxd_device_add example_socket_url example_handler
         (world_of (primary stopped) unreachable []))
  = Thrown (LocalSocketConnectionException "Cannot connect to the LXD socket")
  ∧ calls (snd (lxd_device_remove example_socket_url example_handler
                  (world_of (primary stopped) unreachable [])))
    = [Requested (Req "GET" (lxd_instance_endpoint example_handler) None None)].
Proof.
  destruct (device_update_needs_the_read example_socket_url example_handler
              (world_of (primary stopped) unreachable [])
              (LocalSocketConnectionException "Cannot connect to the LXD socket")
              unreachable) as [-> ->].
  - vm_compute. reflexivity.
  - split; reflexivity.
Defined.

Lemma device_update_merges_witness :
  ∃ added rest,
    calls (snd (lxd_device_add example_socket_url example_handler stopped_world))
    = Requested (Req "GET" (lxd_instance_endpoint example_handler) None None)
      :: Requested (Req "PUT" (lxd_instance_endpoint example_handler) (Some added) None)
      :: rest
    ∧ toObject (value added "devices") !! "root"
      = Some (JObject {[ "type" := JString "disk" ]}).
Proof.
  destruct (device_update_merges example_socket_url example_handler stopped_world
              (<[ "metadata" :=
                    JObject {[ "devices" :=
                      JObject {[ "root" := JObject {[ "type" := JString "disk" ]} ]} ]} ]>
                 acknowledged)
              (remote stopped_world))
    as (added & removed & ra & rr & Ha & _ & _ & _ & _ & Hother).
  - vm_compute. reflexivity.
  - exists added, ra. split; [exact Ha|].
    destruct (Hother "root") as [-> _]; [vm_compute; discriminate|].
    vm_compute. reflexivity.
Defined.

(** ** Mounts on the store daemon *)

Section store_mounts.
Context (make_uuid : string → string) (lxd_socket_url : string).

(** X22: two mounts of one instance under different device names do not
    disturb each other: after both are added both devices are there, and
    removing the first leaves the second, and every other device, in
    place. *)
Theorem mounts_are_independent (h1 h2 : LXDMountHandler) (w : World Store)
    (v : QJsonValue) :
  reachable (remote w) = true →
  resources (remote w) !! lxd_instance_endpoint h1 = Some v →
  lxd_instance_endpoint h2 = lxd_instance_endpoint h1 →
  device_name_ h1 ≠ device_name_ h2 →
  let devices (x : World Store) := device_map (remote x) (lxd_instance_endpoint h1) in
  ∃ w1 w2 w3,
    lxd_device_add lxd_socket_url h1 w = (Returned (), w1)
    ∧ lxd_device_add lxd_socket_url h2 w1 = (Returned (), w2)
    ∧ lxd_device_remove lxd_socket_url h1 w2 = (Returned (), w3)
    ∧ devices w2 !! device_name_ h1 = Some (device_of h1)
    ∧ devices w2 !! device_name_ h2 = Some (device_of h2)
    ∧ devices w3 !! device_name_ h1 = None
    ∧ devices w3 !! device_name_ h2 = Some (device_of h2)
    ∧ ∀ k, k ≠ device_name_ h1 → k ≠ device_name_ h2 →
           devices w3 !! k = devices w !! k.
Proof.
  intros Hr Hv Hep Hne devices.
  destruct (lxd_device_add_store lxd_socket_url h1 w v Hr Hv)
    as (w1 & Ha1 & Hr1 & _ & [v1 Hv1] & Hd1).
  rewrite <- Hep in Hv1.
  destruct (lxd_device_add_store lxd_socket_url h2 w1 v1 Hr1 Hv1)
    as (w2 & Ha2 & Hr2 & _ & [v2 Hv2] & Hd2).
  rewrite Hep in Hv2, Hd2.
  destruct (lxd_device_remove_store lxd_socket_url h1 w2 v2 Hr2 Hv2)
    as (w3 & Hb & _ & _ & Hd3).
  exists w1, w2, w3. subst devices. cbn beta.
  rewrite Hd3, Hd2, Hd1.
  repeat split; try done.
  - rewrite lookup_insert_ne by done. apply lookup_insert_eq.
  - apply lookup_insert_eq.
  - apply lookup_delete_eq.
  - rewrite lookup_delete_ne by done. apply lookup_insert_eq.
  - intros k H1 H2. rewrite lookup_delete_ne by done. by rewrite !lookup_insert_ne.
Qed.

End store_mounts.

Lemma mounts_are_independent_witness :
  ∃ w3,
    (lxd_device_add example_socket_url example_handler;;
     lxd_device_add example_socket_url
       (MountHandler "/data" "/host/data" (lxd_instance_endpoint example_handler) "d_data");;
     lxd_device_remove example_socket_url example_handler) stopped_world
    = (Returned (), w3)
    ∧ device_map (remote w3) (lxd_instance_endpoint example_handler) !! "d_data"
      = Some (device_of (MountHandler "/data" "/host/data"
                           (lxd_instance_endpoint example_handler) "d_data")).
Proof.
  destruct (mounts_are_independent example_socket_url example_handler
              (MountHandler "/data" "/host/data" (lxd_instance_endpoint example_handler)
                 "d_data")
              stopped_world
              (JObject {[ "devices" :=
                 JObject {[ "root" := JObject {[ "type" := JString "disk" ]} ]} ]}))
    as (w1 & w2 & w3 & Ha1 & Ha2 & Hb & _ & _ & _ & Hkept & _).
  - reflexivity.
  - vm_compute. reflexivity.
  - reflexivity.
  - vm_compute. discriminate.
  - exists w3. split; [|exact Hkept].
    unfold mbind, M_bind, bind. rewrite Ha1, Ha2. exact Hb.
Defined.

(** ** More on the lease scan *)

Section lease_scan_more.
Context {IPAddress : Type} (IPAddress_of : string → option IPAddress).

(** X24: an address that the scan returns is the well-formed address of a
    lease that has the queried hardware address, and the scan returns none
    exactly when every lease with that hardware address is malformed (or
    there is none). *)
Theorem get_ip_for_leases_sound (mac_addr : string) (leases : QJsonArray) :
  (∀ ip, get_ip_for_leases IPAddress_of mac_addr leases = Some ip →
     ∃ lease, lease ∈ leases
              ∧ toString (value (toObject lease) "hwaddr") = mac_addr
              ∧ IPAddress_of (toString (value (toObject lease) "address")) = Some ip)
  ∧ (get_ip_for_leases IPAddress_of mac_addr leases = None
     ↔ ∀ lease, lease ∈ leases →
         toString (value (toObject lease) "hwaddr") = mac_addr →
         IPAddress_of (toString (value (toObject lease) "address")) = None).
Proof.
  induction leases as [|l rest [IHsome IHnone]]; cbn.
  - split; [done|]. split; [|done]. intros _ lease Hin. by apply elem_of_nil in Hin.
  - destruct (decide _) as [Hm|Hm].
    + destruct (IPAddress_of (toString (value (toObject l) "address"))) as [ip0|] eqn:Hip.
      * split.
        -- intros ip [= <-]. exists l. split; [by left|done].
        -- split; [done|]. intros Hall. rewrite <- Hip. apply Hall; [by left|done].
      * split.
        -- intros ip Hs. destruct (IHsome ip Hs) as (lease & Hin & H1 & H2).
           exists lease. split; [by right|done].
        -- rewrite IHnone. split.
           ++ intros Hall lease Hin Hl. apply elem_of_cons in Hin as [->|Hin]; auto.
           ++ intros Hall lease Hin. apply Hall. by right.
    + split.
      * intros ip Hs. destruct (IHsome ip Hs) as (lease & Hin & H1 & H2).
        exists lease. split; [by right|done].
      * rewrite IHnone. split.
        -- intros Hall lease Hin Hl. apply elem_of_cons in Hin as [->|Hin]; auto. done.
        -- intros Hall lease Hin. apply Hall. by right.
Qed.

End lease_scan_more.

Lemma get_ip_for_leases_sound_witness :
  ∃ l, l ∈ [lease "52:54:00:aa:bb:cc" "10.0.0."; lease "52:54:00:aa:bb:cc" "10.0.0.5"]
       ∧ toString (value (toObject l) "hwaddr") = "52:54:00:aa:bb:cc"
       ∧ example_IPAddress_of (toString (value (toObject l) "address")) = Some "10.0.0.5".
Proof.
  destruct (get_ip_for_leases_sound example_IPAddress_of "52:54:00:aa:bb:cc"
              [lease "52:54:00:aa:bb:cc" "10.0.0."; lease "52:54:00:aa:bb:cc" "10.0.0.5"])
    as [Hsound _].
  apply Hsound. vm_compute. reflexivity.
Defined.

(** ** What a poll can answer *)

Section poll_range.
Context {R : Type} `{!Daemon R}.

(** The states the table has, and what a poll leaves of the daemon. *)
Lemma instance_state_for_range (n u : string) (w : World R) :
  remote (snd (instance_state_for n u w))
  = snd (lxd_request_reply (Req "GET" u None None) (remote w))
  ∧ ∀ s, fst (instance_state_for n u w) = Returned s →
         s ∈ [running; stopped; starting; suspending; suspended; unknown].
Proof.
  unfold instance_state_for. unfold_M. unfold lxd_request.
  destruct (lxd_request_reply _ _) as [[e|reply] r'] eqn:Hq.
  - cbn. split; [done|]. intros s [=].
  - cbn -[toInt].
    destruct (toInt _ _) as [|p|p];
      [cbn; split; [done|]; intros s [= <-]; split_mem; tauto| |
       cbn; split; [done|]; intros s [= <-]; split_mem; tauto].
    do 7 (destruct p as [p|p|];
          try (cbn; split; [done|]; intros s [= <-]; split_mem; tauto)).
Qed.

(** X25: [current_state] never answers off or restarting, and answers
    delayed_shutdown only when that is what the cache already said: a poll
    can bring the cache to running, stopped, starting, suspending, suspended
    or unknown and to nothing else. *)
Theorem current_state_range (w w' : World R) (s : State) :
  current_state w = (Returned s, w') →
  s ≠ off ∧ s ≠ restarting
  ∧ (s = delayed_shutdown → state (self w) = delayed_shutdown)
  ∧ (state (self w') ≠ state (self w) →
     state (self w') ∈ [running; stopped; starting; suspending; suspended; unknown]).
Proof.
  unfold current_state, try_catch. unfold_M.
  destruct (instance_state_for _ _ w) as [o1 w1] eqn:Hi.
  pose proof (instance_state_for_inv _ _ _ _ _ Hi) as (Hs & _ & _ & _ & Ho).
  pose proof (instance_state_for_range (name (self w)) (state_url (self w)) w) as [_ Hrange].
  rewrite Hi in Hrange. cbn [fst] in Hrange.
  destruct Ho as [[s1 ->]|(e & r' & -> & _ & _)].
  - specialize (Hrange s1 eq_refl). rewrite Hs.
    destruct (bool_decide (state (self w) = delayed_shutdown ∨ state (self w) = starting)
              && bool_decide (s1 = running)) eqn:E.
    + apply andb_prop in E as [E1 E2]. apply bool_decide_eq_true in E1, E2.
      intros [= <- <-]. rewrite Hs. split_mem.
      repeat split; try (intros E; rewrite E in E1; destruct E1; discriminate); done.
    + intros [= <- <-]. cbn. clear E. split_mem.
      repeat split; try (intros ->; intuition discriminate).
      intros _. tauto.
  - destruct e; intros [= <- <-]. cbn. split_mem.
    repeat split; try discriminate. intros _. tauto.
Qed.

Lemma current_state_remote (w : World R) :
  remote (snd (current_state w))
  = snd (lxd_request_reply (state_query (self w)) (remote w)).
Proof.
  unfold current_state, try_catch, state_query. unfold_M.
  pose proof (instance_state_for_range (name (self w)) (state_url (self w)) w) as [Hr _].
  destruct (instance_state_for _ _ w) as [o1 w1] eqn:Hi. cbn [snd] in Hr.
  pose proof (instance_state_for_inv _ _ _ _ _ Hi) as (_ & _ & _ & _ & Ho).
  destruct Ho as [[s1 ->]|(e & r' & -> & _ & _)].
  - by destruct (_ && _).
  - by destruct e.
Qed.

End poll_range.

Lemma current_state_range_witness :
  stopped ≠ off ∧ stopped ≠ restarting
  ∧ (stopped = delayed_shutdown → state (self lagging_world) = delayed_shutdown)
  ∧ (state (self (snd (current_state lagging_world))) ≠ state (self lagging_world) →
     state (self (snd (current_state lagging_world)))
     ∈ [running; stopped; starting; suspending; suspended; unknown]).
Proof.
  apply (current_state_range lagging_world (snd (current_state lagging_world)) stopped).
  vm_compute. reflexivity.
Defined.

(** ** A mount from construction to destruction *)

Section mount_life.
Context (make_uuid : string → string) (lxd_socket_url : string).

Lemma Store_request_get (u : string) d t (s : Store) :
  snd (Store_request (Req "GET" u d t) s) = s.
Proof.
  unfold Store_request. cbn [req_url method].
  destruct (negb (reachable s)); [done|].
  destruct (resources s !! u); [|done]. by rewrite decide_True.
Qed.

(** X23: on a daemon that keeps what is put, a handler constructed on a
    stopped instance has its device in the device map, and destroying the
    handler takes the device out again: the device map is the one from
    before the mount without the target's device name, so a device map that
    did not have the name is back as it was. *)
Theorem mount_then_unmount (w w1 : World Store) (s : State)
    (target_path source_path : string) (v : QJsonValue) :
  let endpoint := lxd_socket_url +:+ "/instances/" +:+ vm_name (self w) in
  let device := device_name_for make_uuid target_path in
  reachable (remote w) = true →
  resources (remote w) !! endpoint = Some v →
  current_state w = (Returned s, w1) →
  s = off ∨ s = stopped →
  ∃ h w2 w3,
    LXDMountHandler_new make_uuid lxd_socket_url target_path source_path w
    = (Returned h, w2)
    ∧ device_map (remote w2) endpoint !! device = Some (device_of h)
    ∧ LXDMountHandler_delete lxd_socket_url h w2 = (Returned (), w3)
    ∧ device_map (remote w3) endpoint = delete device (device_map (remote w) endpoint)
    ∧ (device_map (remote w) endpoint !! device = None →
       device_map (remote w3) endpoint = device_map (remote w) endpoint).
Proof.
  intros endpoint device Hr Hv Hc Hs.
  assert (Hrem : remote w1 = remote w).
  { pose proof (current_state_remote w) as E. rewrite Hc in E. cbn [snd] in E.
    rewrite E. apply Store_request_get. }
  set (h := MountHandler target_path source_path endpoint device).
  set (line := LogLine info category
                 ("initializing native mount " +:+ source_path +:+ " => "
                    +:+ target_path +:+ " in '" +:+ vm_name (self w) +:+ "'")).
  destruct (lxd_device_add_store lxd_socket_url h (with_log line w1) v)
    as (w2 & Ha & Hr2 & _ & [v2 Hv2] & Hd2).
  { cbn. by rewrite Hrem. }
  { cbn. by rewrite Hrem. }
  set (line2 := LogLine info category
                  ("Stopping native mount " +:+ dquote +:+ target_path +:+ dquote
                     +:+ " in instance '" +:+ vm_name (self w2) +:+ "'")).
  destruct (lxd_device_remove_store lxd_socket_url h (with_log line2 w2) v2)
    as (w3 & Hb & _ & _ & Hd3); [done|done|].
  cbn [remote with_log lxd_instance_endpoint h] in Hd2, Hd3. rewrite Hrem in Hd2.
  exists h, w2, w3. split; [|split; [|split; [|split]]].
  - unfold LXDMountHandler_new. unfold_M. rewrite Hc.
    assert (bool_decide (s ≠ off) && bool_decide (s ≠ stopped) = false) as ->.
    { destruct Hs as [-> | ->]; reflexivity. }
    fold endpoint device h. cbn [source target h]. fold line. by rewrite Ha.
  - rewrite Hd2. apply lookup_insert_eq.
  - unfold LXDMountHandler_delete, noexcept. unfold_M. cbn [target h]. fold line2.
    by rewrite Hb.
  - rewrite Hd3, Hd2. cbn [device_name_ h]. apply delete_insert_eq.
  - intros Hfresh. rewrite Hd3, Hd2. cbn [device_name_ h].
    rewrite delete_insert_eq. by apply delete_id.
Qed.

End mount_life.

Lemma mount_then_unmount_witness :
  ∃ h w2 w3,
    LXDMountHandler_new example_make_uuid example_socket_url
      "/home/user/proj" "/host/proj" stopped_world = (Returned h, w2)
    ∧ LXDMountHandler_delete example_socket_url h w2 = (Returned (), w3)
    ∧ device_map (remote w3) (example_socket_url +:+ "/instances/primary")
      = device_map (remote stopped_world) (example_socket_url +:+ "/instances/primary").
Proof.
  destruct (mount_then_unmount example_make_uuid example_socket_url stopped_world
              (snd (current_state stopped_world)) stopped
              "/home/user/proj" "/host/proj"
              (JObject {[ "devices" :=
                 JObject {[ "root" := JObject {[ "type" := JString "disk" ]} ]} ]}))
    as (h & w2 & w3 & Hnew & _ & Hdel & _ & Hback).
  - reflexivity.
  - vm_compute. reflexivity.
  - vm_compute. reflexivity.
  - by right.
  - exists h, w2, w3. split; [exact Hnew|]. split; [exact Hdel|].
    apply Hback. vm_compute. reflexivity.
Defined.

Lemma stop_persists_at_most_stopped_witness :
  persisted (snd (stop (with_self (set_update_shutdown_status false)
                          (machine_world running 103)))) = [].
Proof.
  destruct (stop_persists_at_most_stopped
              (with_self (set_update_shutdown_status false) (machine_world running 103)))
    as (_ & Hoff & _).
  apply Hoff. reflexivity.
Defined.

Lemma device_name_for_length_witness :
  String.length (device_name_for example_make_uuid "/home/user/proj") = 27%nat.
Proof.
  destruct (device_name_for_length example_make_uuid "/home/user/proj") as (Hlen & _ & _).
  exact Hlen.
Defined.
